(** * thread_start_catch: a JVMTI agent that traces the creation of a thread

    Shallow embedding of [src/thread_start_catch.cpp].

    The agent runs only inside callbacks of the JVM.  Every call it makes
    into the JVM (through the [jvmtiEnv] and [JNIEnv] function tables) and
    every piece of text it sends to [std::cerr] is an observable effect, so
    the handlers are written in a small monad that threads

      - the state of the host JVM (abstract, behind the [JVM] interface),
      - the two file-level globals [thread_start] and [thread_name_field],
      - the ordered trace of host calls and [std::cerr] writes,

    and that stops at the first operation whose behaviour C++ leaves
    undefined (a null character pointer given to [std::string] or to [operator<<],
    the read of an uninitialised local). *)

From Stdlib Require Import ZArith List String Ascii Bool Lia.
Import ListNotations.

Local Open Scope Z_scope.
Local Open Scope list_scope.

(** ** C strings *)

Module CString.

Definition NUL : ascii := Ascii.zero.

(** The value of a [char] seen as [unsigned char], as [strcmp] compares. *)
Definition uchar (c : ascii) : Z := Z.of_nat (nat_of_ascii c).

(** The characters of a buffer before its first NUL: what a C string pointer
    denotes, and what the [std::string] constructor copies. *)
Fixpoint c_str (s : string) : string :=
  match s with
  | EmptyString => EmptyString
  | String c r => if Ascii.eqb c NUL then EmptyString else String c (c_str r)
  end.

(** [strcmp]: the difference of the first pair of [unsigned char]s that
    differ, 0 when both strings end together.  The end of the Rocq
    string stands for the terminating NUL. *)
Fixpoint strcmp (a b : string) : Z :=
  match a, b with
  | EmptyString, EmptyString => 0
  | EmptyString, String d _ => 0 - uchar d
  | String c _, EmptyString => uchar c - 0
  | String c a', String d b' =>
      if Ascii.eqb c d
      then (if Ascii.eqb c NUL then 0 else strcmp a' b')
      else uchar c - uchar d
  end.

(** A string without NUL is its own C string. *)
Fixpoint nul_free (s : string) : bool :=
  match s with
  | EmptyString => true
  | String c r => negb (Ascii.eqb c NUL) && nul_free r
  end.

Definition nl : string := String (ascii_of_nat 10) EmptyString.

End CString.
Import CString.

(** ** Handles, buffers and host events *)

(** JNI and JVMTI handles are opaque pointers; 0 is the null pointer. *)
Definition jclass := Z.
Definition jthread := Z.
Definition jstring := Z.
Definition jmethodID := Z.
Definition jfieldID := Z.
Definition jlocation := Z.
Definition NULL : Z := 0.

(** A non-null character pointer into host memory: where it points and
    the bytes found there.  A pointer that may be null is an [option cbuf]. *)
Record cbuf : Type := mkbuf { addr : Z; chars : string }.

(** [jvmtiFrameInfo] *)
Record jvmtiFrameInfo : Type := mkframe { method : jmethodID; location : jlocation }.

(** [jvmtiThreadInfo]; only [name] is read by the agent. *)
Record jvmtiThreadInfo : Type := mkinfo { name : cbuf }.

(** What the host can observe of the agent, in program order. *)
Inductive event : Type :=
| EDeallocate (p : Z)
| EGetClassSignature (cls : jclass)
| EGetMethodName (m : jmethodID)
| EGetThreadInfo (t : jthread)
| EGetStackTrace (t : jthread) (start_depth max_frame_count : Z)
| EGetMethodDeclaringClass (m : jmethodID)
| ESetFieldModificationWatch (k : jclass) (f : jfieldID)
| EGetMethodID (k : jclass) (mname msig : string)
| EGetFieldID (k : jclass) (fname fsig : string)
| EGetStringUTFChars (s : jstring)
| EReleaseStringUTFChars (s : jstring) (p : option cbuf)
| EStderr (text : string).

(** The part of [jvmtiEnv] and [JNIEnv] the agent calls.  [H] is the state
    of the JVM; a JVMTI function whose error code is not [JNI_OK] answers
    [None] (or [false]), and writes nothing through its out-pointers. *)
Record JVM (H : Type) : Type := mkJVM {
  GetClassSignature : jclass -> H -> option cbuf * H;
  GetMethodName : jmethodID -> H -> option cbuf * H;
  GetThreadInfo : jthread -> H -> option jvmtiThreadInfo * H;
  GetStackTrace : jthread -> Z -> Z -> H -> option (list jvmtiFrameInfo) * H;
  GetMethodDeclaringClass : jmethodID -> H -> option jclass * H;
  SetFieldModificationWatch : jclass -> jfieldID -> H -> bool * H;
  Deallocate : Z -> H -> unit * H;
  GetMethodID : jclass -> string -> string -> H -> jmethodID * H;
  GetFieldID : jclass -> string -> string -> H -> jfieldID * H;
  GetStringUTFChars : jstring -> H -> option cbuf * H;
  ReleaseStringUTFChars : jstring -> option cbuf -> H -> unit * H
}.

Arguments GetClassSignature {H} _ _ _.
Arguments GetMethodName {H} _ _ _.
Arguments GetThreadInfo {H} _ _ _.
Arguments GetStackTrace {H} _ _ _ _ _.
Arguments GetMethodDeclaringClass {H} _ _ _.
Arguments SetFieldModificationWatch {H} _ _ _ _.
Arguments Deallocate {H} _ _ _.
Arguments GetMethodID {H} _ _ _ _ _.
Arguments GetFieldID {H} _ _ _ _ _.
Arguments GetStringUTFChars {H} _ _ _.
Arguments ReleaseStringUTFChars {H} _ _ _ _.

(** ** The monad of the handlers *)

(** Operations whose behaviour the C++ standard does not define. *)
Inductive fault : Type :=
| NullToString      (* std::string constructed from a null pointer *)
| NullToStream      (* a null character pointer inserted into an ostream *)
| NullToStrcmp      (* strcmp on a null pointer *)
| IndeterminateRead (* read of a local that was never written *).

(** [Ret]: the code returned.  [Undefined]: the run reached an operation
    the language gives no meaning to; the state and the trace are those
    before it, and nothing is said of what a compiled agent does from
    there on. *)
Inductive outcome (A : Type) : Type :=
| Ret (a : A)
| Undefined (f : fault).
Arguments Ret {A} a.
Arguments Undefined {A} f.

(** The JVM and the two globals of the translation unit
    ([static jmethodID thread_start{0}; static jfieldID thread_name_field{0};]). *)
Record State (H : Type) : Type := mkState {
  host : H;
  thread_start : jmethodID;
  thread_name_field : jfieldID
}.
Arguments mkState {H} _ _ _.
Arguments host {H} _.
Arguments thread_start {H} _.
Arguments thread_name_field {H} _.

Definition initial {H : Type} (h : H) : State H := mkState h 0 0.

Definition M (H A : Type) : Type := State H -> outcome A * State H * list event.

Definition ret {H A} (a : A) : M H A := fun s => (Ret a, s, []).

Definition bind {H A B} (m : M H A) (k : A -> M H B) : M H B :=
  fun s =>
    match m s with
    | (Ret a, s1, t1) =>
        match k a s1 with
        | (r, s2, t2) => (r, s2, t1 ++ t2)
        end
    | (Undefined f, s1, t1) => (Undefined f, s1, t1)
    end.

Definition undefined {H A} (f : fault) : M H A := fun s => (Undefined f, s, []).

(** A host call: logged, answered by the JVM, which moves to a new state. *)
Definition call {H A} (e : event) (f : H -> A * H) : M H A :=
  fun s =>
    match f (host s) with
    | (a, h') => (Ret a, mkState h' (thread_start s) (thread_name_field s), [e])
    end.

Definition get_thread_name_field {H} : M H jfieldID :=
  fun s => (Ret (thread_name_field s), s, []).
Definition set_thread_start {H} (m : jmethodID) : M H unit :=
  fun s => (Ret tt, mkState (host s) m (thread_name_field s), []).
Definition set_thread_name_field {H} (f : jfieldID) : M H unit :=
  fun s => (Ret tt, mkState (host s) (thread_start s) f, []).

(** [std::cerr << "literal"] *)
Definition cerr {H} (text : string) : M H unit :=
  fun s => (Ret tt, s, [EStderr text]).

(** [std::cerr << p] for a character pointer [p]: the C string at [p]; a
    null [p] breaks the precondition of the inserter. *)
Definition cerr_cstr {H} (p : option cbuf) : M H unit :=
  match p with
  | Some b => cerr (c_str (chars b))
  | None => undefined NullToStream
  end.

(** [std::string s(p)] *)
Definition std_string {H} (p : option cbuf) : M H string :=
  match p with
  | Some b => ret (c_str (chars b))
  | None => undefined NullToString
  end.

(** The value of a local of type [T] that may not have been written. *)
Definition read_local {H T} (v : option T) : M H T :=
  match v with
  | Some x => ret x
  | None => undefined IndeterminateRead
  end.

Declare Scope agent_scope.
Delimit Scope agent_scope with agent.
Notation "x <- m ;; k" := (bind m (fun x => k))
  (at level 61, m at next level, right associativity) : agent_scope.
Notation "m ;; k" := (bind m (fun _ => k))
  (at level 61, right associativity) : agent_scope.
Local Open Scope agent_scope.

Definition result_of {H A} (r : outcome A * State H * list event) : outcome A := fst (fst r).
Definition state_of {H A} (r : outcome A * State H * list event) : State H := snd (fst r).
Definition trace_of {H A} (r : outcome A * State H * list event) : list event := snd r.
Arguments result_of {H A} r /.
Arguments state_of {H A} r /.
Arguments trace_of {H A} r /.

(** ** Resource guard: [template <typename T> class Holder] *)

(** A host-allocated buffer has an address, which is what
    [jvmti->Deallocate] receives after the cast to [unsigned char] pointer. *)
Class HostBuffer (T : Type) : Type := address : T -> Z.

#[global] Instance cbuf_HostBuffer : HostBuffer cbuf := addr.

(** The single data member, [T *ptr_{nullptr}]. *)
Record Holder (T : Type) : Type := mkHolder { ptr_ : option T }.
Arguments mkHolder {T} _.
Arguments ptr_ {T} _.

Section HolderOps.

Context {H : Type} (jvm : JVM H) {T : Type} `{HostBuffer T}.

(** [Holder() = default] *)
Definition Holder_default : Holder T := mkHolder None.

(** [explicit Holder(T *ptr)] *)
Definition Holder_new (ptr : option T) : Holder T := mkHolder ptr.

Definition valid (h : Holder T) : bool :=
  match ptr_ h with
  | Some _ => true
  | None => false
  end.

Definition get (h : Holder T) : option T := ptr_ h.

(** [deallocate()]: when [valid()], one [jvmti->Deallocate] on [ptr_]. *)
Definition deallocate (h : Holder T) : M H unit :=
  match ptr_ h with
  | Some p => call (EDeallocate (address p)) (Deallocate jvm (address p))
  | None => ret tt
  end.

(** [~Holder()] *)
Definition Holder_dtor (h : Holder T) : M H unit := deallocate h.

(** [Holder(Holder &&other)]: the new object starts from the default member
    initialiser, runs [deallocate(); ptr_ = nullptr;] and swaps pointers
    with [other].  The result is the new object and [other] afterwards. *)
Definition Holder_move (other : Holder T) : M H (Holder T * Holder T) :=
  let this := mkHolder None in
  deallocate this ;;
  let this := mkHolder None in
  ret (mkHolder (ptr_ other), mkHolder (ptr_ this)).

(** [Holder &operator=(Holder &&other) = default]: member-wise move
    assignment; moving a raw pointer copies it.  The result is the
    assigned object and [other] afterwards. *)
Definition Holder_move_assign (this other : Holder T) : M H (Holder T * Holder T) :=
  ret (mkHolder (ptr_ other), other).

End HolderOps.

(** ** The agent *)

Definition THREAD_TO_CATCH : string := "HighResTimer".
Definition MAX_FRAMES : Z := 10.
Definition THREAD_SIGNATURE : string := "Ljava/lang/Thread;".

Definition JNIChar := Holder cbuf.

Section Agent.

Context {H : Type} (jvm : JVM H).

(** [JNIChar getClassSignature(jclass cls)] *)
Definition getClassSignature (cls : jclass) : M H JNIChar :=
  signature <- call (EGetClassSignature cls) (GetClassSignature jvm cls) ;;
  match signature with
  | None => cerr "failed to take class signature" ;; ret (Holder_new None)
  | Some b => ret (Holder_new (Some b))
  end.

(** [JNIChar getMethodName(jmethodID method)] *)
Definition getMethodName (m : jmethodID) : M H JNIChar :=
  nm <- call (EGetMethodName m) (GetMethodName jvm m) ;;
  match nm with
  | None => cerr "failed to take class signature" ;; ret (Holder_new None)
  | Some b => ret (Holder_new (Some b))
  end.

(** One turn of the loop of [printStackTrace].  [cls] is declared without
    an initialiser and written only by a successful
    [GetMethodDeclaringClass]; the two guards die at the end of the turn,
    in reverse order of declaration. *)
Definition printFrame (f : jvmtiFrameInfo) : M H unit :=
  r <- call (EGetMethodDeclaringClass (method f))
            (GetMethodDeclaringClass jvm (method f)) ;;
  cls <- match r with
         | Some c => ret (Some c)
         | None => cerr ("frame skip. Failed to get classID" ++ nl)%string ;; ret None
         end ;;
  c <- read_local cls ;;
  className <- getClassSignature c ;;
  methodName <- getMethodName (method f) ;;
  cerr_cstr (get className) ;;
  cerr "#" ;;
  cerr_cstr (get methodName) ;;
  cerr nl ;;
  Holder_dtor jvm methodName ;;
  Holder_dtor jvm className.

(** [for (auto i = 0; i < count; i++)] over [frames[0 .. count-1]] *)
Fixpoint printFrames (frames : list jvmtiFrameInfo) : M H unit :=
  match frames with
  | [] => ret tt
  | f :: rest => printFrame f ;; printFrames rest
  end.

(** [void printStackTrace(jthread thread)] *)
Definition printStackTrace (thread : jthread) : M H unit :=
  info <- call (EGetThreadInfo thread) (GetThreadInfo jvm thread) ;;
  match info with
  | Some i =>
      cerr "========= " ;;
      cerr_cstr (Some (name i)) ;;
      cerr (" ==============" ++ nl)%string
  | None => ret tt
  end ;;
  frames <- call (EGetStackTrace thread 2 MAX_FRAMES)
                 (GetStackTrace jvm thread 2 MAX_FRAMES) ;;
  match frames with
  | None => cerr ("GetStackTrace failed" ++ nl)%string
  | Some fs => printFrames fs
  end.

(** [void ClassLoad(jvmtiEnv *, JNIEnv *jni, jthread thread, jclass klass)] *)
Definition ClassLoad (thread : jthread) (klass : jclass) : M H unit :=
  name <- getClassSignature klass ;;
  s <- std_string (get name) ;;
  (if String.eqb s THREAD_SIGNATURE
   then
     m <- call (EGetMethodID klass "start" "()V")
               (GetMethodID jvm klass "start" "()V") ;;
     set_thread_start m ;;
     f <- call (EGetFieldID klass "name" "Ljava/lang/String;")
               (GetFieldID jvm klass "name" "Ljava/lang/String;") ;;
     set_thread_name_field f ;;
     watched <- get_thread_name_field ;;
     ok <- call (ESetFieldModificationWatch klass watched)
                (SetFieldModificationWatch jvm klass watched) ;;
     if ok then ret tt else cerr ("failed to attach field watcher" ++ nl)%string
   else ret tt) ;;
  Holder_dtor jvm name.

(** [strcmp(p, q)] with [q] a literal; a null [p] is outside its contract. *)
Definition strcmp_ptr (p : option cbuf) (q : string) : M H Z :=
  match p with
  | Some b => ret (strcmp (chars b) q)
  | None => undefined NullToStrcmp
  end.

(** [void OnFieldModification(jvmtiEnv *, JNIEnv *jni, jthread thread,
    jmethodID method, jlocation location, jclass field_klass, jobject object,
    jfieldID field, char signature_type, jvalue new_value)]; the handler
    reads only [thread], [field] and [new_value.l]. *)
Definition OnFieldModification (thread : jthread) (field : jfieldID)
    (new_value : jstring) : M H unit :=
  armed <- get_thread_name_field ;;
  if negb (field =? armed) then ret tt
  else
    name <- call (EGetStringUTFChars new_value) (GetStringUTFChars jvm new_value) ;;
    c <- strcmp_ptr name THREAD_TO_CATCH ;;
    if negb (c =? 0)
    then
      call (EReleaseStringUTFChars new_value name)
           (ReleaseStringUTFChars jvm new_value name)
    else
      cerr "Thread " ;;
      cerr_cstr name ;;
      cerr (" is about to get started" ++ nl)%string ;;
      call (EReleaseStringUTFChars new_value name)
           (ReleaseStringUTFChars jvm new_value name) ;;
      printStackTrace thread.

(** The class-load events of a run, delivered one after the other. *)
Fixpoint ClassLoads (loads : list (jthread * jclass)) : M H unit :=
  match loads with
  | [] => ret tt
  | (t, k) :: rest => ClassLoad t k ;; ClassLoads rest
  end.

End Agent.

(** ** A scripted JVM, for running the handlers on concrete inputs *)

(** The answers of a JVM whose replies depend on the handle only; its state
    counts the calls received. *)
Record Script : Type := mkScript {
  s_signature : jclass -> option cbuf;
  s_method_name : jmethodID -> option cbuf;
  s_thread_info : jthread -> option jvmtiThreadInfo;
  s_stack : jthread -> option (list jvmtiFrameInfo);
  s_declaring_class : jmethodID -> option jclass;
  s_watch_ok : bool;
  s_utf_chars : jstring -> option cbuf
}.

Definition scripted (sc : Script) : JVM nat :=
  mkJVM nat
    (fun k h => (s_signature sc k, S h))
    (fun m h => (s_method_name sc m, S h))
    (fun t h => (s_thread_info sc t, S h))
    (fun t _ _ h => (s_stack sc t, S h))
    (fun m h => (s_declaring_class sc m, S h))
    (fun _ _ h => (s_watch_ok sc, S h))
    (fun _ h => (tt, S h))
    (fun k _ _ h => (100 * k + 1, S h))
    (fun k _ _ h => (100 * k + 2, S h))
    (fun j h => (s_utf_chars sc j, S h))
    (fun _ _ h => (tt, S h)).

(** Classes 1 and 2 are both [java.lang.Thread] (two loads of the type),
    class 3 is a subclass, class 4 has no signature to give.  Thread 7 has
    two frames below the skipped ones; thread 8 has one frame whose method
    name cannot be resolved, thread 9 one frame whose declaring class
    cannot; the stack of thread 5 cannot be read. *)
Definition demo : Script :=
  mkScript
    (fun k => if (k =? 1) || (k =? 2) then Some (mkbuf (1000 + k) "Ljava/lang/Thread;")
              else if k =? 3 then Some (mkbuf 1003 "Lcom/acme/Worker;")
              else if k =? 6 then Some (mkbuf 1006 "Lcom/acme/Pool;")
              else None)
    (fun m => if m =? 61 then Some (mkbuf 2061 "spawn")
              else if m =? 62 then Some (mkbuf 2062 "main")
              else None)
    (fun t => if t =? 4 then None else Some (mkinfo (mkbuf (3000 + t) "main")))
    (fun t => if t =? 7 then Some [mkframe 61 0; mkframe 62 12]
              else if t =? 8 then Some [mkframe 63 0; mkframe 62 12]
              else if t =? 9 then Some [mkframe 90 0]
              else None)
    (fun m => if m =? 90 then None else Some 6)
    true
    (fun j => if j =? 50 then Some (mkbuf 5050 "HighResTimer")
              else if j =? 51 then Some (mkbuf 5051 "highrestimer")
              else None).

(** A JVM that resolves every class: classes 1 and 2 are
    [java.lang.Thread], every other class is a worker class. *)
Definition sigof_resolved (k : jclass) : cbuf :=
  mkbuf (1000 + k)
    (if (k =? 1) || (k =? 2) then "Ljava/lang/Thread;" else "Lcom/acme/Worker;").

Definition resolved : Script :=
  mkScript
    (fun k => Some (sigof_resolved k))
    (s_method_name demo) (s_thread_info demo) (s_stack demo)
    (s_declaring_class demo) false (s_utf_chars demo).

(** ** Properties of traces *)

Definition is_watch (e : event) : bool :=
  match e with ESetFieldModificationWatch _ _ => true | _ => false end.

Definition is_release (e : event) : bool :=
  match e with EReleaseStringUTFChars _ _ => true | _ => false end.

Definition is_stack_request (e : event) : bool :=
  match e with EGetStackTrace _ _ _ => true | _ => false end.

Definition is_stderr (e : event) : bool :=
  match e with EStderr _ => true | _ => false end.

(** The events [printStackTrace] can produce. *)
Definition is_capture (e : event) : bool :=
  match e with
  | EStderr _ | EGetThreadInfo _ | EGetStackTrace _ _ _
  | EGetMethodDeclaringClass _ | EGetClassSignature _ | EGetMethodName _
  | EDeallocate _ => true
  | _ => false
  end.

Definition watch_requests (t : list event) : nat := List.length (filter is_watch t).

(** [m] only ever produces events that satisfy [P]. *)
Definition emits {H A} (P : event -> bool) (m : M H A) : Prop :=
  forall s, forallb P (trace_of (m s)) = true.

(** The spec's reading of the arming invariant: over a whole run of
    class-load events, at most one watch request. *)
Definition armed_at_most_once {H} (jvm : JVM H) (loads : list (jthread * jclass))
    (h : H) : Prop :=
  (watch_requests (trace_of (ClassLoads jvm loads (initial h))) <= 1)%nat.

(** The events one turn of the frame loop can produce. *)
Definition is_frame_event (e : event) : bool :=
  match e with
  | EStderr _ | EGetMethodDeclaringClass _ | EGetClassSignature _
  | EGetMethodName _ | EDeallocate _ => true
  | _ => false
  end.

(** What [printStackTrace] writes before it asks for the stack. *)
Definition header_events (info : option jvmtiThreadInfo) : list event :=
  match info with
  | Some i => [EStderr "========= "; EStderr (c_str (chars (name i)));
               EStderr (" ==============" ++ nl)%string]
  | None => []
  end.

(** ** Lifetimes of guards *)

Section Lifetimes.

Context {H : Type} (jvm : JVM H) {T : Type} `{HostBuffer T}.

(** [{ Holder<T> a(p); }] *)
Definition scope_single (p : option T) : M H unit :=
  let a := Holder_new p in
  Holder_dtor jvm a.

(** [{ Holder<T> a(p); Holder<T> b(std::move(a)); }]; [b] dies first. *)
Definition scope_move (p : option T) : M H unit :=
  let a := Holder_new p in
  ba <- Holder_move jvm a ;;
  Holder_dtor jvm (fst ba) ;;
  Holder_dtor jvm (snd ba).

(** [n] guards, each move-constructed from the one before, in nested
    scopes: the last one built dies first. *)
Fixpoint scope_move_chain (n : nat) (a : Holder T) : M H unit :=
  match n with
  | O => Holder_dtor jvm a
  | S n' =>
      ba <- Holder_move jvm a ;;
      scope_move_chain n' (fst ba) ;;
      Holder_dtor jvm (snd ba)
  end.

(** [{ Holder<T> a(p); Holder<T> b(q); b = std::move(a); }]; [b] dies first. *)
Definition scope_move_assign (p q : option T) : M H unit :=
  let a := Holder_new p in
  let b := Holder_new q in
  ba <- Holder_move_assign b a ;;
  Holder_dtor jvm (fst ba) ;;
  Holder_dtor jvm (snd ba).

End Lifetimes.

(** The comparison [s == "Ljava/lang/Thread;"] of [ClassLoad], on the
    buffer the host returned. *)
Definition is_thread_signature (b : cbuf) : bool :=
  String.eqb (c_str (chars b)) THREAD_SIGNATURE.

(** ** More properties of traces *)

Definition is_dealloc (e : event) : bool :=
  match e with EDeallocate _ => true | _ => false end.

Definition is_decode (e : event) : bool :=
  match e with EGetStringUTFChars _ => true | _ => false end.



(** The text that reached [std::cerr], the pieces joined in order. *)
Fixpoint stderr_text (t : list event) : string :=
  match t with
  | [] => EmptyString
  | EStderr text :: rest => (text ++ stderr_text rest)%string
  | _ :: rest => stderr_text rest
  end.

(** [m] leaves the two globals as it found them. *)
Definition keeps_globals {H A} (m : M H A) : Prop :=
  forall s,
    thread_start (state_of (m s)) = thread_start s /\
    thread_name_field (state_of (m s)) = thread_name_field s.



(** ** Delivery of events *)

(** The two kinds of event the agent registers a callback for, with the
    arguments the callbacks read. *)
Inductive agent_event : Type :=
| EvClassLoad (thread : jthread) (klass : jclass)
| EvFieldModification (thread : jthread) (field : jfieldID) (new_value : jstring).

Section Delivery.

Context {H : Type} (jvm : JVM H).

(** [callbacks.ClassLoad = ClassLoad;
     callbacks.FieldModification = OnFieldModification;] *)
Definition dispatch (e : agent_event) : M H unit :=
  match e with
  | EvClassLoad thread klass => ClassLoad jvm thread klass
  | EvFieldModification thread field new_value =>
      OnFieldModification jvm thread field new_value
  end.

(** The events of a run, delivered one after the other. *)
Fixpoint deliver (es : list agent_event) : M H unit :=
  match es with
  | [] => ret tt
  | e :: rest => dispatch e ;; deliver rest
  end.

End Delivery.


(** ** Start-up: [Agent_OnLoad] *)

Definition jint := Z.
Definition JNI_OK : jint := 0.
Definition JNI_ERR : jint := -1.

(** The JVMTI version the agent asks for. *)
Inductive jvmti_version : Type := JVMTI_VERSION_1_2.

(** The bits of [jvmtiCapabilities] the agent sets; [= {0}] clears all
    the others. *)
Record jvmtiCapabilities : Type := mkCapabilities {
  can_generate_all_class_hook_events : bool;
  can_retransform_classes : bool;
  can_retransform_any_class : bool;
  can_get_bytecodes : bool;
  can_get_constant_pool : bool;
  can_get_source_file_name : bool;
  can_get_line_numbers : bool;
  can_generate_compiled_method_load_events : bool;
  can_generate_monitor_events : bool;
  can_generate_method_entry_events : bool;
  can_tag_objects : bool;
  can_generate_field_modification_events : bool
}.

(** The functions of the agent a callback slot can point to. *)
Inductive callback : Type := cb_ClassLoad | cb_OnFieldModification.

(** The slots of [jvmtiEventCallbacks] that matter here: the two the agent
    fills and the one for the VM-start event, which it enables; [= {0}]
    leaves every slot null. *)
Record jvmtiEventCallbacks : Type := mkCallbacks {
  slot_VMStart : option callback;
  slot_ClassLoad : option callback;
  slot_FieldModification : option callback
}.

Inductive jvmtiEventMode : Type := JVMTI_ENABLE | JVMTI_DISABLE.

Inductive jvmtiEvent : Type :=
| JVMTI_EVENT_VM_START
| JVMTI_EVENT_CLASS_LOAD
| JVMTI_EVENT_FIELD_MODIFICATION.

(** What the host sees of [Agent_OnLoad], in program order. *)
Inductive load_event : Type :=
| LGetEnv (v : jvmti_version)
| LAddCapabilities (c : jvmtiCapabilities)
| LSetEventCallbacks (cb : jvmtiEventCallbacks)
| LSetEventNotificationMode (mode : jvmtiEventMode) (ev : jvmtiEvent)
    (event_thread : option jthread)
| LStderr (text : string).

(** The functions of [JavaVM] and [jvmtiEnv] that [Agent_OnLoad] calls;
    [true] stands for the return code [JNI_OK]. *)
Record LoadVM (H : Type) : Type := mkLoadVM {
  GetEnv : jvmti_version -> H -> bool * H;
  AddCapabilities : jvmtiCapabilities -> H -> bool * H;
  SetEventCallbacks : jvmtiEventCallbacks -> H -> bool * H;
  SetEventNotificationMode :
    jvmtiEventMode -> jvmtiEvent -> option jthread -> H -> bool * H
}.
Arguments GetEnv {H} _ _ _.
Arguments AddCapabilities {H} _ _ _.
Arguments SetEventCallbacks {H} _ _ _.
Arguments SetEventNotificationMode {H} _ _ _ _ _.

Section Load.

Context {H : Type} (vm : LoadVM H).

(** [if (call != JNI_OK) { std::cerr << msg; return JNI_ERR; }] followed by
    the rest of the function. *)
Definition or_fail (e : load_event) (q : H -> bool * H) (msg : string)
    (rest : H -> jint * H * list load_event) (h : H) : jint * H * list load_event :=
  match q h with
  | (true, h1) =>
      match rest h1 with
      | (r, h2, t) => (r, h2, e :: t)
      end
  | (false, h1) => (JNI_ERR, h1, [e; LStderr msg])
  end.

Definition agent_capabilities : jvmtiCapabilities :=
  mkCapabilities true true true true true true true true true true true true.

Definition agent_callbacks : jvmtiEventCallbacks :=
  mkCallbacks None (Some cb_ClassLoad) (Some cb_OnFieldModification).

(** [JNIEXPORT jint JNICALL Agent_OnLoad(JavaVM *jvm, char *options, void *reserved)] *)
Definition Agent_OnLoad : H -> jint * H * list load_event :=
  or_fail (LGetEnv JVMTI_VERSION_1_2) (GetEnv vm JVMTI_VERSION_1_2)
    ("Unable to access jvmti" ++ nl) (
  or_fail (LAddCapabilities agent_capabilities) (AddCapabilities vm agent_capabilities)
    ("AddCapabilities failed" ++ nl) (
  or_fail (LSetEventCallbacks agent_callbacks) (SetEventCallbacks vm agent_callbacks)
    ("SetEventCallbacks failed" ++ nl) (
  or_fail (LSetEventNotificationMode JVMTI_ENABLE JVMTI_EVENT_VM_START None)
    (SetEventNotificationMode vm JVMTI_ENABLE JVMTI_EVENT_VM_START None)
    ("SetEventNotificationMode JVMTI_EVENT_VM_START failed" ++ nl) (
  or_fail (LSetEventNotificationMode JVMTI_ENABLE JVMTI_EVENT_CLASS_LOAD None)
    (SetEventNotificationMode vm JVMTI_ENABLE JVMTI_EVENT_CLASS_LOAD None)
    ("SetEventNotificationMode JVMTI_EVENT_CLASS_LOAD failed" ++ nl) (
  or_fail (LSetEventNotificationMode JVMTI_ENABLE JVMTI_EVENT_FIELD_MODIFICATION None)
    (SetEventNotificationMode vm JVMTI_ENABLE JVMTI_EVENT_FIELD_MODIFICATION None)
    ("SetEventNotificationMode JVMTI_EVENT_FIELD_MODIFICATION failed" ++ nl) (
  fun h => (JNI_OK, h, [LStderr ("Agent loaded successfully" ++ nl)])))))))%string.

End Load.

(** The six host calls of a start-up that goes through, in order. *)
Definition load_calls : list load_event :=
  [LGetEnv JVMTI_VERSION_1_2;
   LAddCapabilities agent_capabilities;
   LSetEventCallbacks agent_callbacks;
   LSetEventNotificationMode JVMTI_ENABLE JVMTI_EVENT_VM_START None;
   LSetEventNotificationMode JVMTI_ENABLE JVMTI_EVENT_CLASS_LOAD None;
   LSetEventNotificationMode JVMTI_ENABLE JVMTI_EVENT_FIELD_MODIFICATION None].

Definition is_load_call (e : load_event) : bool :=
  match e with LStderr _ => false | _ => true end.

Definition is_enable (e : load_event) : bool :=
  match e with LSetEventNotificationMode _ _ _ => true | _ => false end.

(** A host that answers the [n]-th call (from 0) with an error and every
    other call with [JNI_OK]; its state counts the calls. *)
Definition failing_at (n : nat) : LoadVM nat :=
  mkLoadVM nat
    (fun _ h => (negb (Nat.eqb h n), S h))
    (fun _ h => (negb (Nat.eqb h n), S h))
    (fun _ h => (negb (Nat.eqb h n), S h))
    (fun _ _ _ h => (negb (Nat.eqb h n), S h)).




(** A host on which every call of the start-up succeeds. *)
Definition always_ok : LoadVM nat :=
  mkLoadVM nat
    (fun _ h => (true, S h))
    (fun _ h => (true, S h))
    (fun _ h => (true, S h))
    (fun _ _ _ h => (true, S h)).

(** ** Runs in which the host's lookups succeed *)

Section ResolvingRuns.

Context {H : Type} (jvm : JVM H).

(** Each class-load event of the run finds, when it is delivered, a host
    that can give the signature of its class. *)
Fixpoint signatures_resolve (loads : list (jthread * jclass)) (s : State H) : Prop :=
  match loads with
  | [] => True
  | (t, k) :: rest =>
      fst (GetClassSignature jvm k (host s)) <> None /\
      signatures_resolve rest (state_of (ClassLoad jvm t k s))
  end.


End ResolvingRuns.

(** ** The host's answers during start-up *)

Section LoadAnswers.

Context {H : Type} (vm : LoadVM H).

(** The six host calls of [Agent_OnLoad], in program order. *)
Definition load_queries : list (H -> bool * H) :=
  [GetEnv vm JVMTI_VERSION_1_2;
   AddCapabilities vm agent_capabilities;
   SetEventCallbacks vm agent_callbacks;
   SetEventNotificationMode vm JVMTI_ENABLE JVMTI_EVENT_VM_START None;
   SetEventNotificationMode vm JVMTI_ENABLE JVMTI_EVENT_CLASS_LOAD None;
   SetEventNotificationMode vm JVMTI_ENABLE JVMTI_EVENT_FIELD_MODIFICATION None].

(** What the host answers when it is asked the queries one after the
    other, up to and including its first error ([false]), and the state
    it is left in. *)
Fixpoint ask (qs : list (H -> bool * H)) (h : H) : list bool * H :=
  match qs with
  | [] => ([], h)
  | q :: rest =>
      match q h with
      | (true, h1) =>
          match ask rest h1 with
          | (answers, h2) => (true :: answers, h2)
          end
      | (false, h1) => ([false], h1)
      end
  end.

End LoadAnswers.

(** The diagnostic for each of the six calls, in the same order. *)
Definition load_messages : list string :=
  ["Unable to access jvmti" ++ nl;
   "AddCapabilities failed" ++ nl;
   "SetEventCallbacks failed" ++ nl;
   "SetEventNotificationMode JVMTI_EVENT_VM_START failed" ++ nl;
   "SetEventNotificationMode JVMTI_EVENT_CLASS_LOAD failed" ++ nl;
   "SetEventNotificationMode JVMTI_EVENT_FIELD_MODIFICATION failed" ++ nl]%string.

(** * Theorems *)

(** ** C strings *)

Lemma uchar_zero (c : ascii) : uchar c = 0 <-> c = NUL.
Proof.
  unfold uchar, NUL. split.
  - intros E. assert (N : nat_of_ascii c = 0%nat) by lia.
    rewrite <- (ascii_nat_embedding c), N. reflexivity.
  - intros ->. reflexivity.
Qed.

Lemma uchar_inj (c d : ascii) : uchar c = uchar d -> c = d.
Proof.
  unfold uchar. intros E.
  assert (N : nat_of_ascii c = nat_of_ascii d) by lia.
  rewrite <- (ascii_nat_embedding c), <- (ascii_nat_embedding d), N.
  reflexivity.
Qed.

(** [strcmp] answers 0 exactly when the two C strings are the same. *)
Lemma strcmp_zero (a : string) : forall b, strcmp a b = 0 <-> c_str a = c_str b.
Proof.
  induction a as [|c a IH]; intros [|d b]; simpl.
  - tauto.
  - destruct (Ascii.eqb_spec d NUL) as [->|N].
    + split; reflexivity.
    + split; [intros E | discriminate].
      exfalso. apply N, uchar_zero. lia.
  - destruct (Ascii.eqb_spec c NUL) as [->|N].
    + split; reflexivity.
    + split; [intros E | discriminate].
      exfalso. apply N, uchar_zero. lia.
  - destruct (Ascii.eqb_spec c d) as [->|N].
    + destruct (Ascii.eqb_spec d NUL) as [_|_]; [tauto|].
      rewrite IH. split; [intros -> | intros E; injection E]; auto.
    + split.
      * intros E. exfalso. apply N, uchar_inj. lia.
      * destruct (Ascii.eqb_spec c NUL) as [->|Nc];
          destruct (Ascii.eqb_spec d NUL) as [->|Nd];
          try discriminate; try congruence.
Qed.

Lemma c_str_nul_free (s : string) : nul_free s = true -> c_str s = s.
Proof.
  induction s as [|c s IH]; simpl; [reflexivity|].
  destruct (Ascii.eqb c NUL); simpl; [discriminate|].
  intros E. now rewrite IH.
Qed.

(** ** The monad *)

Section MonadFacts.

Context {H : Type}.

Lemma bind_Ret {A B} (m : M H A) (k : A -> M H B) s a s1 t1 :
  m s = (Ret a, s1, t1) ->
  bind m k s = (result_of (k a s1), state_of (k a s1), t1 ++ trace_of (k a s1)).
Proof.
  intros E. unfold bind. rewrite E.
  destruct (k a s1) as [[r s2] t2]. reflexivity.
Qed.

Lemma bind_Undefined {A B} (m : M H A) (k : A -> M H B) s f s1 t1 :
  m s = (Undefined f, s1, t1) -> bind m k s = (Undefined f, s1, t1).
Proof. intros E. unfold bind. now rewrite E. Qed.

Lemma bind_ret_tt (m : M H unit) s : bind m (fun _ => ret tt) s = m s.
Proof.
  unfold bind. destruct (m s) as [[[[]|f] s1] t1]; simpl; [|reflexivity].
  now rewrite app_nil_r.
Qed.

Lemma emits_ret {A} P (a : A) : emits (H:=H) P (ret a).
Proof. intros s. reflexivity. Qed.

Lemma emits_undefined {A} P f : emits (H:=H) (A:=A) P (undefined f).
Proof. intros s. reflexivity. Qed.

Lemma emits_call {A} (P : event -> bool) e (f : H -> A * H) :
  P e = true -> emits P (call e f).
Proof.
  intros Pe s. unfold call. destruct (f (host s)). simpl. now rewrite Pe.
Qed.

Lemma emits_cerr (P : event -> bool) text :
  P (EStderr text) = true -> emits (H:=H) P (cerr text).
Proof. intros Pe s. simpl. now rewrite Pe. Qed.

Lemma emits_bind {A B} P (m : M H A) (k : A -> M H B) :
  emits P m -> (forall a, emits P (k a)) -> emits P (bind m k).
Proof.
  intros Em Ek s. unfold bind. specialize (Em s).
  destruct (m s) as [[[a|f] s1] t1]; simpl in *; [|assumption].
  specialize (Ek a s1). destruct (k a s1) as [[r s2] t2]. simpl in *.
  rewrite forallb_app, Em, Ek. reflexivity.
Qed.

Lemma emits_cerr_cstr (P : event -> bool) p :
  (forall text, P (EStderr text) = true) -> emits (H:=H) P (cerr_cstr p).
Proof.
  intros Pe. destruct p; simpl; [apply emits_cerr, Pe | apply emits_undefined].
Qed.

Lemma emits_read_local {T} P (v : option T) : emits (H:=H) P (read_local v).
Proof. destruct v; [apply emits_ret | apply emits_undefined]. Qed.

End MonadFacts.

(** Events that [P] rejects do not show in a trace that only has [Q]-events,
    when [Q] excludes [P]. *)
Lemma filter_excluded (P Q : event -> bool) (t : list event) :
  (forall e, Q e = true -> P e = false) ->
  forallb Q t = true -> filter P t = [].
Proof.
  intros PQ. induction t as [|e t IH]; simpl; [reflexivity|].
  intros E. apply andb_prop in E as [Qe Qt].
  rewrite (PQ e Qe). auto.
Qed.

Lemma emits_weaken {H A} (P Q : event -> bool) (m : M H A) :
  (forall e, P e = true -> Q e = true) -> emits P m -> emits Q m.
Proof.
  intros PQ Em s. specialize (Em s).
  induction (trace_of (m s)) as [|e t IH]; simpl in *; [reflexivity|].
  apply andb_prop in Em as [Pe Pt]. now rewrite (PQ e Pe), IH.
Qed.

(** ** Resource guard *)

Section HolderFacts.

Context {H : Type} (jvm : JVM H) {T : Type} `{HostBuffer T}.

Lemma deallocate_trace (h : Holder T) s :
  trace_of (deallocate jvm h s) =
  match ptr_ h with Some p => [EDeallocate (address p)] | None => [] end.
Proof.
  unfold deallocate. destruct (ptr_ h); [|reflexivity].
  unfold call. now destruct (Deallocate jvm (address t) (host s)).
Qed.

Lemma deallocate_result (h : Holder T) s : result_of (deallocate jvm h s) = Ret tt.
Proof.
  unfold deallocate. destruct (ptr_ h); [|reflexivity].
  unfold call. now destruct (Deallocate jvm (address t) (host s)) as [[] h'].
Qed.

(** A guard built on a buffer and destroyed releases it once. *)
Lemma Holder_single_release (p : T) s :
  trace_of (scope_single jvm (Some p) s) = [EDeallocate (address p)].
Proof. unfold scope_single, Holder_dtor. now rewrite deallocate_trace. Qed.

(** An empty guard releases nothing. *)
Lemma Holder_empty_no_release s :
  scope_single jvm (None : option T) s = (Ret tt, s, []).
Proof. reflexivity. Qed.

(** Move construction empties its source and takes the buffer over. *)
Lemma Holder_move_run (a : Holder T) s :
  Holder_move jvm a s = (Ret (mkHolder (ptr_ a), mkHolder None), s, []).
Proof. reflexivity. Qed.

Lemma scope_move_chain_run (n : nat) : forall (a : Holder T) s,
  scope_move_chain jvm n a s = deallocate jvm a s.
Proof.
  induction n as [|n IH]; intros [pa] s; simpl; [reflexivity|].
  unfold bind at 1. rewrite Holder_move_run. simpl.
  change (Holder_dtor jvm {| ptr_ := None |}) with (ret (H:=H) tt).
  rewrite bind_ret_tt, IH.
  destruct (deallocate jvm {| ptr_ := pa |} s) as [[r s1] t1]. reflexivity.
Qed.

(** However often a guard is moved by construction, its buffer is
    released once. *)
Lemma Holder_move_chain_single_release (n : nat) (p : T) s :
  trace_of (scope_move_chain jvm n (Holder_new (Some p)) s) = [EDeallocate (address p)].
Proof. now rewrite scope_move_chain_run, deallocate_trace. Qed.

Lemma Holder_move_single_release (p : T) s :
  trace_of (scope_move jvm (Some p) s) = [EDeallocate (address p)].
Proof.
  change (scope_move jvm (Some p)) with (scope_move_chain jvm 1 (Holder_new (Some p))).
  apply Holder_move_chain_single_release.
Qed.

(** C2, at the failing input: a guard that owns [p] is move-assigned to
    another guard and both go out of scope.  The defaulted move assignment
    copies the pointer and leaves the source as it was, so the buffer [p]
    is released twice (and the buffer the target owned before, never). *)
Theorem Holder_move_assign_releases_twice (p : T) (q : option T) s :
  result_of (scope_move_assign jvm (Some p) q s) = Ret tt /\
  trace_of (scope_move_assign jvm (Some p) q s) =
    [EDeallocate (address p); EDeallocate (address p)].
Proof.
  unfold scope_move_assign, Holder_move_assign, Holder_dtor, deallocate, bind, ret, call.
  simpl.
  destruct (Deallocate jvm (address p) (host s)) as [[] h1]. simpl.
  destruct (Deallocate jvm (address p) h1) as [[] h2]. simpl.
  split; reflexivity.
Qed.

End HolderFacts.

(** ** Stack capturer *)

Section CaptureFacts.

Context {H : Type} (jvm : JVM H).

Ltac emits_step :=
  first
    [ apply emits_ret
    | apply emits_undefined
    | apply emits_read_local
    | apply emits_cerr; reflexivity
    | apply emits_cerr_cstr; reflexivity
    | apply emits_call; reflexivity
    | apply emits_bind; [|intros ?] ].

Lemma getClassSignature_emits cls : emits is_frame_event (getClassSignature jvm cls).
Proof.
  unfold getClassSignature. emits_step; [emits_step|].
  destruct a; repeat emits_step.
Qed.

Lemma getMethodName_emits m : emits is_frame_event (getMethodName jvm m).
Proof.
  unfold getMethodName. emits_step; [emits_step|].
  destruct a; repeat emits_step.
Qed.

Lemma Holder_dtor_emits (h : JNIChar) : emits is_frame_event (Holder_dtor jvm h).
Proof.
  unfold Holder_dtor, deallocate. destruct (ptr_ h); emits_step.
Qed.

Lemma printFrame_emits f : emits is_frame_event (printFrame jvm f).
Proof.
  unfold printFrame.
  emits_step; [emits_step|].
  emits_step; [destruct a; repeat emits_step|].
  emits_step; [emits_step|].
  emits_step; [apply getClassSignature_emits|].
  emits_step; [apply getMethodName_emits|].
  repeat (emits_step; [emits_step|]).
  emits_step; apply Holder_dtor_emits.
Qed.

Lemma printFrames_emits fs : emits is_frame_event (printFrames jvm fs).
Proof.
  induction fs as [|f fs IH]; simpl; [apply emits_ret|].
  apply emits_bind; [apply printFrame_emits | intros _; exact IH].
Qed.

Lemma printStackTrace_emits thread : emits is_capture (printStackTrace jvm thread).
Proof.
  unfold printStackTrace.
  emits_step; [emits_step|].
  emits_step; [destruct a; repeat emits_step|].
  emits_step; [emits_step|].
  destruct a1; [|emits_step].
  apply emits_weaken with (P := is_frame_event); [|apply printFrames_emits].
  intros []; simpl; congruence.
Qed.

(** A frame whose declaring class, class signature and method name all
    resolve is written as the four pieces of one line, and both buffers
    are given back, the method name first. *)
Lemma printFrame_resolved (f : jvmtiFrameInfo) s c h1 sig h2 nm h3 :
  GetMethodDeclaringClass jvm (method f) (host s) = (Some c, h1) ->
  GetClassSignature jvm c h1 = (Some sig, h2) ->
  GetMethodName jvm (method f) h2 = (Some nm, h3) ->
  result_of (printFrame jvm f s) = Ret tt /\
  trace_of (printFrame jvm f s) =
    [EGetMethodDeclaringClass (method f); EGetClassSignature c;
     EGetMethodName (method f);
     EStderr (c_str (chars sig)); EStderr "#"; EStderr (c_str (chars nm)); EStderr nl;
     EDeallocate (addr nm); EDeallocate (addr sig)].
Proof.
  intros E1 E2 E3.
  unfold printFrame, getClassSignature, getMethodName, Holder_dtor, deallocate,
    bind, call, ret, cerr, cerr_cstr, read_local.
  simpl. rewrite E1. simpl. rewrite E2. simpl. rewrite E3. simpl.
  unfold address, cbuf_HostBuffer.
  destruct (Deallocate jvm (addr nm) h3) as [[] h4]. simpl.
  destruct (Deallocate jvm (addr sig) h4) as [[] h5]. simpl.
  split; reflexivity.
Qed.

(** [printStackTrace], run: the thread-info query, the header, the one
    request for the stack, then either the diagnostic or the frame loop. *)
Lemma printStackTrace_run (thread : jthread) (s : State H) :
  printStackTrace jvm thread s =
  match GetThreadInfo jvm thread (host s) with
  | (info, h1) =>
      match GetStackTrace jvm thread 2 10 h1 with
      | (None, h2) =>
          (Ret tt, mkState h2 (thread_start s) (thread_name_field s),
           EGetThreadInfo thread :: header_events info
             ++ [EGetStackTrace thread 2 10;
                 EStderr ("GetStackTrace failed" ++ nl)%string])
      | (Some fs, h2) =>
          let r := printFrames jvm fs
                     (mkState h2 (thread_start s) (thread_name_field s)) in
          (result_of r, state_of r,
           EGetThreadInfo thread :: header_events info
             ++ EGetStackTrace thread 2 10 :: trace_of r)
      end
  end.
Proof.
  unfold printStackTrace, bind at 1, call at 1.
  destruct (GetThreadInfo jvm thread (host s)) as [info h1].
  set (s1 := mkState h1 (thread_start s) (thread_name_field s)).
  assert (Hd : forall k : unit -> M H unit,
    bind (match info with
          | Some i => cerr "========= " ;; cerr_cstr (Some (name i)) ;;
                      cerr (" ==============" ++ nl)%string
          | None => ret tt
          end) k s1 =
    (result_of (k tt s1), state_of (k tt s1), header_events info ++ trace_of (k tt s1))).
  { intros k. destruct info as [i|]; unfold bind, cerr, cerr_cstr, ret; simpl;
      destruct (k tt s1) as [[r1 s2] t2]; reflexivity. }
  rewrite Hd. clear Hd. cbn [result_of state_of trace_of fst snd].
  unfold bind, call. cbn [host s1 thread_start thread_name_field].
  change MAX_FRAMES with 10.
  destruct (GetStackTrace jvm thread 2 10 h1) as [[fs|] h2].
  - destruct (printFrames jvm fs _) as [[r2 s3] t3]. reflexivity.
  - reflexivity.
Qed.

(** The first thing a turn of the frame loop does is to ask for the
    declaring class of the frame's method. *)
Lemma printFrame_first_event (f : jvmtiFrameInfo) (s : State H) :
  exists t', trace_of (printFrame jvm f s) = EGetMethodDeclaringClass (method f) :: t'.
Proof.
  unfold printFrame, bind at 1, call at 1.
  destruct (GetMethodDeclaringClass jvm (method f) (host s)) as [a h1].
  match goal with
  | |- context [match ?k ?st with _ => _ end] =>
      destruct (k st) as [[r2 s2] t2]
  end.
  eexists. reflexivity.
Qed.

(** C7: a capture asks the host once for the stack, for at most
    [MAX_FRAMES] = 10 frames from depth 2 on.  If the query fails the
    capture ends there: no frame is looked at and no frame line is
    rendered; of the capture only the header (if any) was written, and
    the failure is logged after it.  If the query succeeds, the loop walks
    what the host returned: for a host that answers with the frames of
    the thread's stack from depth 2 on, at most 10 of them, the first
    frame looked at is the third of the stack, and when its names resolve
    the first line rendered is that frame's. *)
Theorem printStackTrace_request (thread : jthread) (s : State H) :
  let q1 := GetThreadInfo jvm thread (host s) in
  let q2 := GetStackTrace jvm thread 2 10 (snd q1) in
  let s2 := mkState (snd q2) (thread_start s) (thread_name_field s) in
  let r := printStackTrace jvm thread s in
  MAX_FRAMES = 10 /\
  exists rest,
    trace_of r =
      EGetThreadInfo thread :: header_events (fst q1)
        ++ EGetStackTrace thread 2 10 :: rest /\
    filter is_stack_request rest = [] /\
    (fst q2 = None ->
       rest = [EStderr ("GetStackTrace failed" ++ nl)%string] /\
       result_of r = Ret tt) /\
    (forall stack : list jvmtiFrameInfo,
       fst q2 = Some (firstn 10 (skipn 2 stack)) ->
       rest = trace_of (printFrames jvm (firstn 10 (skipn 2 stack)) s2) /\
       result_of r = result_of (printFrames jvm (firstn 10 (skipn 2 stack)) s2) /\
       (List.length (firstn 10 (skipn 2 stack)) <= 10)%nat /\
       forall f, nth_error stack 2 = Some f ->
         (exists rest', rest = EGetMethodDeclaringClass (method f) :: rest') /\
         forall c h3 a h4 b h5,
           GetMethodDeclaringClass jvm (method f) (snd q2) = (Some c, h3) ->
           GetClassSignature jvm c h3 = (Some a, h4) ->
           GetMethodName jvm (method f) h4 = (Some b, h5) ->
           exists rest',
             rest =
               [EGetMethodDeclaringClass (method f); EGetClassSignature c;
                EGetMethodName (method f);
                EStderr (c_str (chars a)); EStderr "#"; EStderr (c_str (chars b));
                EStderr nl; EDeallocate (addr b); EDeallocate (addr a)] ++ rest').
Proof.
  cbv zeta. split; [reflexivity|].
  rewrite printStackTrace_run.
  destruct (GetThreadInfo jvm thread (host s)) as [info h1]. cbn [fst snd].
  destruct (GetStackTrace jvm thread 2 10 h1) as [[fs|] h2]; cbn [fst snd].
  - set (s2 := mkState h2 (thread_start s) (thread_name_field s)).
    exists (trace_of (printFrames jvm fs s2)).
    split; [reflexivity|]. split; [|split; [discriminate|]].
    { apply filter_excluded with (Q := is_frame_event);
        [intros []; simpl; congruence | apply printFrames_emits]. }
    intros stack F.
    remember (firstn 10 (skipn 2 stack)) as fr eqn:Efr.
    injection F as ->.
    split; [reflexivity|]. split; [reflexivity|].
    split; [rewrite Efr, length_firstn; lia|].
    intros f N.
    assert (Hd : exists fs', fr = f :: fs').
    { destruct stack as [|x0 [|x1 [|x2 tl]]]; try discriminate N.
      injection N as ->. exists (firstn 9 tl). exact Efr. }
    destruct Hd as [fs' ->]. clear Efr N.
    cbn [printFrames].
    assert (B : forall t1 s1 r1,
              printFrame jvm f s2 = (r1, s1, t1) ->
              exists rest', trace_of (bind (printFrame jvm f)
                                        (fun _ => printFrames jvm fs') s2)
                            = t1 ++ rest').
    { intros t1 s1 r1 P. unfold bind. rewrite P.
      destruct r1 as [u|u]; [|exists []; cbn; now rewrite app_nil_r].
      destruct (printFrames jvm fs' s1) as [[r3 s3] t3].
      exists t3. reflexivity. }
    split.
    + destruct (printFrame_first_event f s2) as [t' T].
      destruct (printFrame jvm f s2) as [[r1 s1] t1] eqn:P. cbn in T. subst t1.
      destruct (B _ _ _ eq_refl) as [rest' ->]. eexists. reflexivity.
    + intros c h3 a h4 b h5 Q1 Q2 Q3.
      destruct (printFrame_resolved f s2 c h3 a h4 b h5 Q1 Q2 Q3) as [_ T].
      destruct (printFrame jvm f s2) as [[r1 s1] t1] eqn:P. cbn in T. subst t1.
      destruct (B _ _ _ eq_refl) as [rest' ->]. exists rest'. reflexivity.
  - cbn. eexists. split; [reflexivity|]. split; [reflexivity|].
    split; [intros _; split; reflexivity | discriminate].
Qed.

End CaptureFacts.

(** ** Class-load handler *)

Section ClassLoadFacts.

Context {H : Type} (jvm : JVM H).

(** [ClassLoad], run from any state, armed or not. *)
Lemma ClassLoad_run (thread : jthread) (klass : jclass) (s : State H) :
  ClassLoad jvm thread klass s =
  match GetClassSignature jvm klass (host s) with
  | (None, h1) =>
      (Undefined NullToString,
       mkState h1 (thread_start s) (thread_name_field s),
       [EGetClassSignature klass; EStderr "failed to take class signature"])
  | (Some b, h1) =>
      if is_thread_signature b
      then
        match GetMethodID jvm klass "start" "()V" h1 with
        | (m, h2) =>
        match GetFieldID jvm klass "name" "Ljava/lang/String;" h2 with
        | (f, h3) =>
        match SetFieldModificationWatch jvm klass f h3 with
        | (ok, h4) =>
            (Ret tt, mkState (snd (Deallocate jvm (addr b) h4)) m f,
             [EGetClassSignature klass;
              EGetMethodID klass "start" "()V";
              EGetFieldID klass "name" "Ljava/lang/String;";
              ESetFieldModificationWatch klass f]
             ++ (if ok then []
                 else [EStderr ("failed to attach field watcher" ++ nl)%string])
             ++ [EDeallocate (addr b)])
        end end end
      else
        (Ret tt,
         mkState (snd (Deallocate jvm (addr b) h1)) (thread_start s) (thread_name_field s),
         [EGetClassSignature klass; EDeallocate (addr b)])
  end.
Proof.
  unfold ClassLoad, getClassSignature, is_thread_signature, Holder_dtor, deallocate,
    bind, call, ret, cerr, std_string, get, Holder_new,
    set_thread_start, set_thread_name_field, get_thread_name_field.
  destruct (GetClassSignature jvm klass (host s)) as [[b|] h1]; cbn; [|reflexivity].
  destruct (String.eqb (c_str (chars b)) THREAD_SIGNATURE); cbn.
  - destruct (GetMethodID jvm klass "start" "()V" h1) as [m h2]. cbn.
    destruct (GetFieldID jvm klass "name" "Ljava/lang/String;" h2) as [f h3]. cbn.
    destruct (SetFieldModificationWatch jvm klass f h3) as [[|] h4]; cbn;
      unfold address, cbuf_HostBuffer;
      destruct (Deallocate jvm (addr b) h4) as [[] h5]; reflexivity.
  - unfold address, cbuf_HostBuffer.
    destruct (Deallocate jvm (addr b) h1) as [[] h2]. reflexivity.
Qed.

(** A class-load event whose signature resolves to anything but the
    thread signature changes neither global and asks for no watch. *)
Lemma ClassLoad_other (thread : jthread) (klass : jclass) (s : State H) (b : cbuf) :
  fst (GetClassSignature jvm klass (host s)) = Some b ->
  is_thread_signature b = false ->
  let r := ClassLoad jvm thread klass s in
  result_of r = Ret tt /\
  thread_start (state_of r) = thread_start s /\
  thread_name_field (state_of r) = thread_name_field s /\
  trace_of r = [EGetClassSignature klass; EDeallocate (addr b)].
Proof.
  intros E N. cbv zeta. rewrite ClassLoad_run.
  destruct (GetClassSignature jvm klass (host s)) as [o h1]. simpl in E. subst o.
  rewrite N. cbn. repeat split.
Qed.

(** A class-load event whose signature resolves to the thread signature
    arms, whatever the state before: both identities are looked up and
    stored, and the watch is requested on the field just looked up. *)
Lemma ClassLoad_arms (thread : jthread) (klass : jclass) (s : State H) (b : cbuf) :
  fst (GetClassSignature jvm klass (host s)) = Some b ->
  is_thread_signature b = true ->
  let r := ClassLoad jvm thread klass s in
  exists m f diag,
    result_of r = Ret tt /\
    thread_start (state_of r) = m /\
    thread_name_field (state_of r) = f /\
    filter is_watch diag = [] /\
    trace_of r =
      [EGetClassSignature klass;
       EGetMethodID klass "start" "()V";
       EGetFieldID klass "name" "Ljava/lang/String;";
       ESetFieldModificationWatch klass f] ++ diag ++ [EDeallocate (addr b)].
Proof.
  intros E Y. cbv zeta. rewrite ClassLoad_run.
  destruct (GetClassSignature jvm klass (host s)) as [o h1]. simpl in E. subst o.
  rewrite Y.
  destruct (GetMethodID jvm klass "start" "()V" h1) as [m h2].
  destruct (GetFieldID jvm klass "name" "Ljava/lang/String;" h2) as [f h3].
  destruct (SetFieldModificationWatch jvm klass f h3) as [ok h4].
  exists m, f, (if ok then [] else [EStderr ("failed to attach field watcher" ++ nl)%string]).
  cbn. destruct ok; repeat split.
Qed.

Lemma watch_requests_app (t u : list event) :
  watch_requests (t ++ u) = (watch_requests t + watch_requests u)%nat.
Proof. unfold watch_requests. now rewrite filter_app, length_app. Qed.

Lemma is_thread_signature_spec (b : cbuf) :
  is_thread_signature b = true <-> c_str (chars b) = THREAD_SIGNATURE.
Proof. apply String.eqb_eq. Qed.

(** C10: arming happens only for the exact signature
    ["Ljava/lang/Thread;"]: a class-load event whose resolved signature is
    any other string (a subclass of the thread type included) returns with
    the stored method identity and the stored field identity as they were,
    having asked the host for no lookup and no watch. *)
Theorem ClassLoad_other_signature_unchanged
    (thread : jthread) (klass : jclass) (s : State H) (b : cbuf) :
  fst (GetClassSignature jvm klass (host s)) = Some b ->
  c_str (chars b) <> "Ljava/lang/Thread;"%string ->
  let r := ClassLoad jvm thread klass s in
  result_of r = Ret tt /\
  thread_start (state_of r) = thread_start s /\
  thread_name_field (state_of r) = thread_name_field s /\
  trace_of r = [EGetClassSignature klass; EDeallocate (addr b)] /\
  watch_requests (trace_of r) = 0%nat.
Proof.
  intros E N.
  assert (F : is_thread_signature b = false).
  { destruct (is_thread_signature b) eqn:Y; [|reflexivity].
    apply is_thread_signature_spec in Y. contradiction. }
  destruct (ClassLoad_other thread klass s b E F) as (R & A & B & Tr).
  cbv zeta. rewrite Tr. repeat split; assumption.
Qed.

(** C4, at the failing input: when the signature of the loaded class
    cannot be resolved, no watch is requested and neither global is
    written, but the handler does not return: it builds a [std::string]
    from the null pointer of the empty guard, which is undefined. *)
Theorem ClassLoad_unresolved_signature
    (thread : jthread) (klass : jclass) (s : State H) :
  fst (GetClassSignature jvm klass (host s)) = None ->
  let r := ClassLoad jvm thread klass s in
  result_of r = Undefined NullToString /\
  thread_start (state_of r) = thread_start s /\
  thread_name_field (state_of r) = thread_name_field s /\
  trace_of r = [EGetClassSignature klass; EStderr "failed to take class signature"].
Proof.
  intros E. cbv zeta. rewrite ClassLoad_run.
  destruct (GetClassSignature jvm klass (host s)) as [o h1]. simpl in E. subst o.
  repeat split.
Qed.

(** On a host that gives the same signature for a class whenever it is
    asked, the watch requests of a run are as many as its events whose
    class has the thread signature. *)
Lemma ClassLoads_watch_per_match (sigof : jclass -> cbuf) :
  (forall k h, fst (GetClassSignature jvm k h) = Some (sigof k)) ->
  forall (loads : list (jthread * jclass)) (s : State H),
    result_of (ClassLoads jvm loads s) = Ret tt /\
    watch_requests (trace_of (ClassLoads jvm loads s)) =
      List.length (filter (fun l => is_thread_signature (sigof (snd l))) loads).
Proof.
  intros Hsig loads. induction loads as [|[t k] rest IH]; intros s.
  - split; reflexivity.
  - cbn [ClassLoads filter snd].
    assert (Step : exists s1 t1,
      ClassLoad jvm t k s = (Ret tt, s1, t1) /\
      watch_requests t1 = if is_thread_signature (sigof k) then 1%nat else 0%nat).
    { destruct (is_thread_signature (sigof k)) eqn:Y.
      - destruct (ClassLoad_arms t k s (sigof k) (Hsig k (host s)) Y)
          as (m & f & diag & R & _ & _ & D & Tr).
        destruct (ClassLoad jvm t k s) as [[r1 s1] t1]. cbn in R, Tr. subst r1 t1.
        exists s1. eexists. split; [reflexivity|].
        unfold watch_requests. cbn. now rewrite filter_app, D.
      - destruct (ClassLoad_other t k s (sigof k) (Hsig k (host s)) Y)
          as (R & _ & _ & Tr).
        destruct (ClassLoad jvm t k s) as [[r1 s1] t1]. cbn in R, Tr. subst r1 t1.
        exists s1. eexists. split; reflexivity. }
    destruct Step as (s1 & t1 & E1 & W1).
    rewrite (bind_Ret _ _ _ _ _ _ E1).
    destruct (IH s1) as [R2 W2].
    unfold result_of, trace_of in *. cbn [fst snd]. split; [exact R2|].
    rewrite watch_requests_app, W1, W2.
    destruct (is_thread_signature (sigof k)); reflexivity.
Qed.

(** A class-load event whose signature resolves, from any state. *)
Lemma ClassLoad_resolved (t : jthread) (k : jclass) (s : State H) (b : cbuf) :
  let q0 := GetClassSignature jvm k (host s) in
  let q1 := GetMethodID jvm k "start" "()V" (snd q0) in
  let q2 := GetFieldID jvm k "name" "Ljava/lang/String;" (snd q1) in
  let q3 := SetFieldModificationWatch jvm k (fst q2) (snd q2) in
  let r := ClassLoad jvm t k s in
  fst q0 = Some b ->
  result_of r = Ret tt /\
  if is_thread_signature b
  then
    thread_start (state_of r) = fst q1 /\
    thread_name_field (state_of r) = fst q2 /\
    trace_of r =
      [EGetClassSignature k; EGetMethodID k "start" "()V";
       EGetFieldID k "name" "Ljava/lang/String;";
       ESetFieldModificationWatch k (fst q2)]
      ++ (if fst q3 then []
          else [EStderr ("failed to attach field watcher" ++ nl)%string])
      ++ [EDeallocate (addr b)]
  else
    thread_start (state_of r) = thread_start s /\
    thread_name_field (state_of r) = thread_name_field s /\
    trace_of r = [EGetClassSignature k; EDeallocate (addr b)].
Proof.
  cbv zeta. intros E. rewrite ClassLoad_run.
  destruct (GetClassSignature jvm k (host s)) as [o h1]. cbn in E. subst o.
  cbn [snd]. destruct (is_thread_signature b).
  - destruct (GetMethodID jvm k "start" "()V" h1) as [m h2]. cbn [fst snd].
    destruct (GetFieldID jvm k "name" "Ljava/lang/String;" h2) as [f h3].
    cbn [fst snd].
    destruct (SetFieldModificationWatch jvm k f h3) as [ok h4].
    repeat split.
  - repeat split.
Qed.

(** A run of class-load events followed by one more: the last event is
    handled in the state the run left. *)
Lemma ClassLoads_snoc (t : jthread) (k : jclass) (pre : list (jthread * jclass)) :
  forall s : State H,
    signatures_resolve jvm pre s ->
    result_of (ClassLoads jvm pre s) = Ret tt /\
    ClassLoads jvm (pre ++ [(t, k)]) s =
      (result_of (ClassLoad jvm t k (state_of (ClassLoads jvm pre s))),
       state_of (ClassLoad jvm t k (state_of (ClassLoads jvm pre s))),
       trace_of (ClassLoads jvm pre s)
         ++ trace_of (ClassLoad jvm t k (state_of (ClassLoads jvm pre s)))).
Proof.
  induction pre as [|[t0 k0] pre IH]; intros s R.
  - split; [reflexivity|]. cbn [app ClassLoads]. rewrite bind_ret_tt. cbn.
    destruct (ClassLoad jvm t k s) as [[r1 s1] t1]. reflexivity.
  - destruct R as [N R]. cbn [app ClassLoads].
    assert (E : exists s1 t1, ClassLoad jvm t0 k0 s = (Ret tt, s1, t1)).
    { rewrite ClassLoad_run.
      destruct (GetClassSignature jvm k0 (host s)) as [[b|] h1];
        [|now contradiction N].
      destruct (is_thread_signature b).
      - destruct (GetMethodID jvm k0 "start" "()V" h1) as [m h2].
        destruct (GetFieldID jvm k0 "name" "Ljava/lang/String;" h2) as [f h3].
        destruct (SetFieldModificationWatch jvm k0 f h3) as [ok h4].
        eexists _, _. reflexivity.
      - eexists _, _. reflexivity. }
    destruct E as (s1 & t1 & E). rewrite E in R. cbn [state_of fst snd] in R.
    rewrite !(bind_Ret _ _ _ _ _ _ E).
    destruct (IH s1 R) as [R0 Sn]. rewrite Sn.
    unfold result_of, state_of, trace_of in *. cbn [fst snd].
    split; [exact R0|]. now rewrite app_assoc.
Qed.

(** C1, amended: in every run of class-load events whose signatures
    resolve, each event whose signature is the thread signature arms, the
    first one and every later one alike: it looks up the method and the
    field identity, overwrites the two stored identities with the answers
    and requests the watch once more, on its class and on the field just
    stored.  An event with any other signature stores nothing and
    requests no watch.  So the watch is requested once per matching
    event, not at most once. *)
Theorem ClassLoads_each_match_arms
    (pre : list (jthread * jclass)) (t : jthread) (k : jclass)
    (s : State H) (b : cbuf) :
  let r0 := ClassLoads jvm pre s in
  let q0 := GetClassSignature jvm k (host (state_of r0)) in
  let q1 := GetMethodID jvm k "start" "()V" (snd q0) in
  let q2 := GetFieldID jvm k "name" "Ljava/lang/String;" (snd q1) in
  let q3 := SetFieldModificationWatch jvm k (fst q2) (snd q2) in
  let r := ClassLoads jvm (pre ++ [(t, k)]) s in
  signatures_resolve jvm pre s ->
  fst q0 = Some b ->
  result_of r = Ret tt /\
  if is_thread_signature b
  then
    thread_start (state_of r) = fst q1 /\
    thread_name_field (state_of r) = fst q2 /\
    trace_of r =
      trace_of r0
      ++ [EGetClassSignature k; EGetMethodID k "start" "()V";
          EGetFieldID k "name" "Ljava/lang/String;";
          ESetFieldModificationWatch k (fst q2)]
      ++ (if fst q3 then []
          else [EStderr ("failed to attach field watcher" ++ nl)%string])
      ++ [EDeallocate (addr b)] /\
    watch_requests (trace_of r) = S (watch_requests (trace_of r0))
  else
    thread_start (state_of r) = thread_start (state_of r0) /\
    thread_name_field (state_of r) = thread_name_field (state_of r0) /\
    trace_of r = trace_of r0 ++ [EGetClassSignature k; EDeallocate (addr b)] /\
    watch_requests (trace_of r) = watch_requests (trace_of r0).
Proof.
  cbv zeta. intros R E.
  destruct (ClassLoads_snoc t k pre s R) as [_ Sn]. rewrite Sn.
  pose proof (ClassLoad_resolved t k (state_of (ClassLoads jvm pre s)) b E) as St.
  cbv zeta in St. destruct St as [R1 St].
  cbn [result_of state_of trace_of fst snd] in *.
  split; [exact R1|].
  destruct (is_thread_signature b).
  - destruct St as (A & B & Tr). rewrite Tr.
    split; [exact A|]. split; [exact B|]. split; [reflexivity|].
    rewrite watch_requests_app. unfold watch_requests at 2. cbn [app filter is_watch].
    rewrite filter_app.
    destruct (fst (SetFieldModificationWatch jvm k _ _)); cbn; lia.
  - destruct St as (A & B & Tr). rewrite Tr.
    split; [exact A|]. split; [exact B|]. split; [reflexivity|].
    rewrite watch_requests_app. cbn. lia.
Qed.

End ClassLoadFacts.

(** ** Field-modification handler *)

Section FieldModificationFacts.

Context {H : Type} (jvm : JVM H).

(** [OnFieldModification], run from any state. *)
Lemma OnFieldModification_run
    (thread : jthread) (field : jfieldID) (new_value : jstring) (s : State H) :
  OnFieldModification jvm thread field new_value s =
  if field =? thread_name_field s
  then
    match GetStringUTFChars jvm new_value (host s) with
    | (None, h1) =>
        (Undefined NullToStrcmp,
         mkState h1 (thread_start s) (thread_name_field s),
         [EGetStringUTFChars new_value])
    | (Some b, h1) =>
        let h2 := snd (ReleaseStringUTFChars jvm new_value (Some b) h1) in
        let s2 := mkState h2 (thread_start s) (thread_name_field s) in
        if strcmp (chars b) THREAD_TO_CATCH =? 0
        then
          let r := printStackTrace jvm thread s2 in
          (result_of r, state_of r,
           [EGetStringUTFChars new_value;
            EStderr "Thread "; EStderr (c_str (chars b));
            EStderr (" is about to get started" ++ nl)%string;
            EReleaseStringUTFChars new_value (Some b)] ++ trace_of r)
        else
          (Ret tt, s2,
           [EGetStringUTFChars new_value; EReleaseStringUTFChars new_value (Some b)])
    end
  else (Ret tt, s, []).
Proof.
  unfold OnFieldModification, bind at 1, get_thread_name_field.
  destruct (field =? thread_name_field s); cbn [negb]; [|reflexivity].
  unfold bind at 1, call at 1.
  destruct (GetStringUTFChars jvm new_value (host s)) as [[b|] h1];
    [|reflexivity].
  unfold bind at 1, strcmp_ptr, ret.
  destruct (strcmp (chars b) THREAD_TO_CATCH =? 0); cbn [negb].
  - unfold bind, call, cerr_cstr, cerr. cbn [host thread_start thread_name_field].
    destruct (ReleaseStringUTFChars jvm new_value (Some b) h1) as [[] h2].
    cbn [snd].
    destruct (printStackTrace jvm thread _) as [[r s3] t3]. reflexivity.
  - unfold call. cbn [host thread_start thread_name_field].
    destruct (ReleaseStringUTFChars jvm new_value (Some b) h1) as [[] h2].
    reflexivity.
Qed.

Lemma strcmp_target (b : cbuf) :
  (strcmp (chars b) THREAD_TO_CATCH =? 0) = true <->
  c_str (chars b) = THREAD_TO_CATCH.
Proof.
  rewrite Z.eqb_eq, strcmp_zero. reflexivity.
Qed.

(** C6: a field-modification event that arrives before arming (the stored
    field identity is still null, the event's is not), or for a field
    other than the armed one, returns at once: the value is not decoded,
    nothing is written and no capture is made. *)
Theorem OnFieldModification_filtered
    (thread : jthread) (field : jfieldID) (new_value : jstring) (s : State H) :
  (thread_name_field s = NULL /\ field <> NULL) \/ field <> thread_name_field s ->
  OnFieldModification jvm thread field new_value s = (Ret tt, s, []).
Proof.
  intros D. rewrite OnFieldModification_run.
  assert (N : field <> thread_name_field s).
  { destruct D as [[E N]|N]; [rewrite E|]; exact N. }
  apply Z.eqb_neq in N. now rewrite N.
Qed.

(** C5: when the new value decodes to a C string other than
    ["HighResTimer"], compared byte for byte, the handler returns without
    a notice line and without a capture: all it may do is decode the
    value and release it again. *)
Theorem OnFieldModification_other_name
    (thread : jthread) (field : jfieldID) (new_value : jstring) (s : State H)
    (b : cbuf) :
  fst (GetStringUTFChars jvm new_value (host s)) = Some b ->
  c_str (chars b) <> "HighResTimer"%string ->
  let r := OnFieldModification jvm thread field new_value s in
  result_of r = Ret tt /\
  (trace_of r = [] \/
   trace_of r = [EGetStringUTFChars new_value;
                 EReleaseStringUTFChars new_value (Some b)]) /\
  filter is_capture (trace_of r) = [].
Proof.
  intros E N. cbv zeta. rewrite OnFieldModification_run.
  destruct (field =? thread_name_field s).
  - destruct (GetStringUTFChars jvm new_value (host s)) as [o h1].
    simpl in E. subst o.
    destruct (strcmp (chars b) THREAD_TO_CATCH =? 0) eqn:C.
    + apply strcmp_target in C. contradiction.
    + cbn. repeat split. now right.
  - cbn. repeat split. now left.
Qed.

(** C9: whenever the handler decodes the new value, it releases the
    decoded characters exactly once, on the same string handle, after the
    mismatch as well as after the match (there before the capture
    starts), whatever the capture then does. *)
Theorem OnFieldModification_releases_once
    (thread : jthread) (field : jfieldID) (new_value : jstring) (s : State H)
    (b : cbuf) :
  field = thread_name_field s ->
  fst (GetStringUTFChars jvm new_value (host s)) = Some b ->
  let r := OnFieldModification jvm thread field new_value s in
  filter is_release (trace_of r) = [EReleaseStringUTFChars new_value (Some b)] /\
  exists before after,
    trace_of r = EGetStringUTFChars new_value :: before
                   ++ EReleaseStringUTFChars new_value (Some b) :: after /\
    filter is_stderr before = before /\
    (c_str (chars b) <> THREAD_TO_CATCH -> before = [] /\ after = []).
Proof.
  intros F E. cbv zeta. rewrite OnFieldModification_run.
  rewrite F, Z.eqb_refl.
  destruct (GetStringUTFChars jvm new_value (host s)) as [o h1].
  simpl in E. subst o. cbv zeta.
  destruct (strcmp (chars b) THREAD_TO_CATCH =? 0) eqn:C.
  - apply strcmp_target in C.
    pose proof (printStackTrace_emits jvm thread
      (mkState (snd (ReleaseStringUTFChars jvm new_value (Some b) h1))
         (thread_start s) (thread_name_field s))) as P.
    destruct (printStackTrace jvm thread _) as [[r s3] t3].
    cbn [trace_of result_of state_of fst snd] in *.
    split.
    + cbn. f_equal. apply filter_excluded with (Q := is_capture); [|exact P].
      intros []; simpl; congruence.
    + eexists [_; _; _], t3. split; [reflexivity|]. split; [reflexivity|].
      intros N. contradiction.
  - cbn. split; [reflexivity|].
    exists [], []. repeat split.
Qed.

End FieldModificationFacts.

(** C1, as stated, fails: [java.lang.Thread] delivered twice (classes 1
    and 2 of the scripted JVM) gets the watch requested twice, and the
    second load overwrites both stored identities. *)
Lemma ClassLoad_rearms_on_second_load :
  ~ armed_at_most_once (scripted demo) [(0, 1); (0, 2)] 0%nat /\
  state_of (ClassLoads (scripted demo) [(0, 1)] (initial 0%nat))
    = mkState 5%nat 101 102 /\
  state_of (ClassLoads (scripted demo) [(0, 1); (0, 2)] (initial 0%nat))
    = mkState 10%nat 201 202.
Proof.
  split; [|split; reflexivity].
  unfold armed_at_most_once.
  change (watch_requests _) with 2%nat. lia.
Qed.

(** C3, at failing inputs: a failed host query can take a handler into
    undefined behaviour.  [ClassLoad] for a class whose signature the host
    cannot give builds a [std::string] from a null pointer; a capture of a
    stack with a frame whose method name the host cannot give streams a
    null pointer; one with a frame whose declaring class the host cannot
    give reads a class handle that was never written. *)
Theorem query_failure_reaches_undefined_behaviour :
  result_of (ClassLoad (scripted demo) 0 4 (initial 0%nat))
    = Undefined NullToString /\
  result_of (OnFieldModification (scripted demo) 8 102 50 (mkState 0%nat 101 102))
    = Undefined NullToStream /\
  result_of (OnFieldModification (scripted demo) 9 102 50 (mkState 0%nat 101 102))
    = Undefined IndeterminateRead.
Proof. repeat split. Qed.

(** C8, at failing inputs.  Thread 8: the method name of the first frame
    does not resolve; the class signature and the separator are written,
    then a null pointer is streamed, so the line is never finished and the
    second frame is never looked at.  Thread 9: the declaring class of the
    frame does not resolve; the warning is logged, and the frame is not
    skipped: the class handle, never written, is read. *)
Theorem printStackTrace_unresolved_frame :
  printStackTrace (scripted demo) 8 (initial 0%nat) =
    (Undefined NullToStream, mkState 5%nat 0 0,
     [EGetThreadInfo 8; EStderr "========= "; EStderr "main";
      EStderr (" ==============" ++ nl)%string;
      EGetStackTrace 8 2 10;
      EGetMethodDeclaringClass 63; EGetClassSignature 6; EGetMethodName 63;
      EStderr "failed to take class signature";
      EStderr "Lcom/acme/Pool;"; EStderr "#"]) /\
  printStackTrace (scripted demo) 9 (initial 0%nat) =
    (Undefined IndeterminateRead, mkState 3%nat 0 0,
     [EGetThreadInfo 9; EStderr "========= "; EStderr "main";
      EStderr (" ==============" ++ nl)%string;
      EGetStackTrace 9 2 10;
      EGetMethodDeclaringClass 90;
      EStderr ("frame skip. Failed to get classID" ++ nl)%string]).
Proof. split; reflexivity. Qed.

(** ** The theorems at concrete inputs *)

Lemma ClassLoads_watch_per_match_witness :
  (forall k h, fst (GetClassSignature (scripted resolved) k h) = Some (sigof_resolved k)) /\
  result_of (ClassLoads (scripted resolved) [(0, 1); (0, 3); (0, 2)] (initial 0%nat))
    = Ret tt /\
  watch_requests
    (trace_of (ClassLoads (scripted resolved) [(0, 1); (0, 3); (0, 2)] (initial 0%nat)))
    = 2%nat.
Proof.
  split; [intros k h; reflexivity|].
  apply (ClassLoads_watch_per_match (scripted resolved) sigof_resolved
           (fun k h => eq_refl) [(0, 1); (0, 3); (0, 2)] (initial 0%nat)).
Defined.

Lemma ClassLoads_each_match_arms_witness :
  signatures_resolve (scripted demo) [(0, 1)] (initial 0%nat) /\
  fst (GetClassSignature (scripted demo) 2
         (host (state_of (ClassLoads (scripted demo) [(0, 1)] (initial 0%nat)))))
    = Some (mkbuf 1002 "Ljava/lang/Thread;") /\
  thread_name_field
    (state_of (ClassLoads (scripted demo) [(0, 1)] (initial 0%nat))) = 102 /\
  thread_name_field
    (state_of (ClassLoads (scripted demo) ([(0, 1)] ++ [(0, 2)]) (initial 0%nat))) = 202 /\
  watch_requests
    (trace_of (ClassLoads (scripted demo) ([(0, 1)] ++ [(0, 2)]) (initial 0%nat)))
    = 2%nat.
Proof.
  assert (R : signatures_resolve (scripted demo) [(0, 1)] (initial 0%nat))
    by (split; [discriminate | exact I]).
  split; [exact R|]. split; [reflexivity|]. split; [reflexivity|].
  pose proof (ClassLoads_each_match_arms (scripted demo) [(0, 1)] 0 2 (initial 0%nat)
                (mkbuf 1002 "Ljava/lang/Thread;") R eq_refl) as W.
  destruct W as (_ & _ & F & _ & Q). split; [exact F | exact Q].
Defined.

Lemma ClassLoad_unresolved_signature_witness :
  fst (GetClassSignature (scripted demo) 4 (host (initial 0%nat))) = None /\
  result_of (ClassLoad (scripted demo) 0 4 (initial 0%nat)) = Undefined NullToString.
Proof.
  split; [reflexivity|].
  apply (ClassLoad_unresolved_signature (scripted demo) 0 4 (initial 0%nat)).
  reflexivity.
Defined.

Lemma ClassLoad_other_signature_unchanged_witness :
  fst (GetClassSignature (scripted demo) 3 (host (initial 0%nat)))
    = Some (mkbuf 1003 "Lcom/acme/Worker;") /\
  thread_name_field (state_of (ClassLoad (scripted demo) 0 3 (initial 0%nat))) = 0 /\
  watch_requests (trace_of (ClassLoad (scripted demo) 0 3 (initial 0%nat))) = 0%nat.
Proof.
  split; [reflexivity|].
  pose proof (ClassLoad_other_signature_unchanged (scripted demo) 0 3 (initial 0%nat)
                (mkbuf 1003 "Lcom/acme/Worker;") eq_refl) as W.
  assert (N : c_str (chars (mkbuf 1003 "Lcom/acme/Worker;")) <> "Ljava/lang/Thread;"%string)
    by (vm_compute; discriminate).
  destruct (W N) as (_ & _ & F & _ & Q). split; [exact F | exact Q].
Defined.

Lemma OnFieldModification_filtered_witness :
  (thread_name_field (initial 0%nat) = NULL /\ 102 <> NULL) /\
  OnFieldModification (scripted demo) 7 102 50 (initial 0%nat)
    = (Ret tt, initial 0%nat, []).
Proof.
  assert (U : thread_name_field (initial 0%nat) = NULL /\ 102 <> NULL)
    by (split; [reflexivity | unfold NULL; lia]).
  split; [exact U|].
  apply (OnFieldModification_filtered (scripted demo) 7 102 50 (initial 0%nat)).
  left. exact U.
Defined.

Lemma OnFieldModification_other_name_witness :
  fst (GetStringUTFChars (scripted demo) 51 (host (mkState 0%nat 101 102)))
    = Some (mkbuf 5051 "highrestimer") /\
  filter is_capture
    (trace_of (OnFieldModification (scripted demo) 7 102 51 (mkState 0%nat 101 102)))
    = [].
Proof.
  split; [reflexivity|].
  assert (N : c_str (chars (mkbuf 5051 "highrestimer")) <> "HighResTimer"%string)
    by (vm_compute; discriminate).
  exact (proj2 (proj2 (OnFieldModification_other_name (scripted demo) 7 102 51
                         (mkState 0%nat 101 102) (mkbuf 5051 "highrestimer") eq_refl N))).
Defined.

Lemma OnFieldModification_releases_once_witness :
  fst (GetStringUTFChars (scripted demo) 50 (host (mkState 0%nat 101 102)))
    = Some (mkbuf 5050 "HighResTimer") /\
  filter is_release
    (trace_of (OnFieldModification (scripted demo) 7 102 50 (mkState 0%nat 101 102)))
    = [EReleaseStringUTFChars 50 (Some (mkbuf 5050 "HighResTimer"))].
Proof.
  split; [reflexivity|].
  exact (proj1 (OnFieldModification_releases_once (scripted demo) 7 102 50
                  (mkState 0%nat 101 102) (mkbuf 5050 "HighResTimer") eq_refl eq_refl)).
Defined.

Lemma printStackTrace_request_witness :
  (fst (GetStackTrace (scripted demo) 5 2 10
          (snd (GetThreadInfo (scripted demo) 5 (host (initial 0%nat))))) = None /\
   exists rest,
     trace_of (printStackTrace (scripted demo) 5 (initial 0%nat)) =
       EGetThreadInfo 5 :: header_events (s_thread_info demo 5)
         ++ EGetStackTrace 5 2 10 :: rest /\
     rest = [EStderr ("GetStackTrace failed" ++ nl)%string]) /\
  (fst (GetStackTrace (scripted demo) 7 2 10
          (snd (GetThreadInfo (scripted demo) 7 (host (initial 0%nat)))))
     = Some (firstn 10 (skipn 2 [mkframe 1 0; mkframe 2 0; mkframe 61 0; mkframe 62 12])) /\
   exists rest',
     trace_of (printStackTrace (scripted demo) 7 (initial 0%nat)) =
       EGetThreadInfo 7 :: header_events (s_thread_info demo 7)
         ++ EGetStackTrace 7 2 10
         :: [EGetMethodDeclaringClass 61; EGetClassSignature 6; EGetMethodName 61;
             EStderr "Lcom/acme/Pool;"; EStderr "#"; EStderr "spawn"; EStderr nl;
             EDeallocate 2061; EDeallocate 1006] ++ rest').
Proof.
  split.
  - split; [reflexivity|].
    destruct (printStackTrace_request (scripted demo) 5 (initial 0%nat))
      as (_ & rest & Tr & _ & F & _).
    exists rest. split; [exact Tr|]. exact (proj1 (F eq_refl)).
  - split; [reflexivity|].
    destruct (printStackTrace_request (scripted demo) 7 (initial 0%nat))
      as (_ & rest & Tr & _ & _ & S).
    destruct (S [mkframe 1 0; mkframe 2 0; mkframe 61 0; mkframe 62 12] eq_refl)
      as (_ & _ & _ & Fr).
    destruct (Fr (mkframe 61 0) eq_refl) as [_ L].
    destruct (L 6 _ (mkbuf 1006 "Lcom/acme/Pool;") _ (mkbuf 2061 "spawn") _
                eq_refl eq_refl eq_refl) as [rest' E].
    exists rest'. rewrite Tr, E. reflexivity.
Defined.

(** * Further properties of the code *)

(** ** More facts about the monad and about traces *)

Section MoreMonadFacts.

Context {H : Type}.

Lemma keeps_ret {A} (a : A) : keeps_globals (H:=H) (ret a).
Proof. intros s. split; reflexivity. Qed.

Lemma keeps_undefined {A} f : keeps_globals (H:=H) (A:=A) (undefined f).
Proof. intros s. split; reflexivity. Qed.

Lemma keeps_call {A} e (f : H -> A * H) : keeps_globals (call e f).
Proof. intros s. unfold call. destruct (f (host s)). split; reflexivity. Qed.

Lemma keeps_cerr text : keeps_globals (H:=H) (cerr text).
Proof. intros s. split; reflexivity. Qed.

Lemma keeps_cerr_cstr p : keeps_globals (H:=H) (cerr_cstr p).
Proof. destruct p; [apply keeps_cerr | apply keeps_undefined]. Qed.

Lemma keeps_read_local {T} (v : option T) : keeps_globals (H:=H) (read_local v).
Proof. destruct v; [apply keeps_ret | apply keeps_undefined]. Qed.

Lemma keeps_get_thread_name_field : keeps_globals (H:=H) get_thread_name_field.
Proof. intros s. split; reflexivity. Qed.

Lemma keeps_bind {A B} (m : M H A) (k : A -> M H B) :
  keeps_globals m -> (forall a, keeps_globals (k a)) -> keeps_globals (bind m k).
Proof.
  intros Km Kk s. unfold bind. specialize (Km s).
  destruct (m s) as [[[a|f] s1] t1]; cbn in *; [|exact Km].
  specialize (Kk a s1). destruct (k a s1) as [[r s2] t2]. cbn in *.
  destruct Km as [E1 E2]. destruct Kk as [E3 E4]. split; congruence.
Qed.

End MoreMonadFacts.



(** ** Start-up *)

Section LoadFacts.

Context {H : Type} (vm : LoadVM H).

(** Walks down [pre ++ x :: post = e1 :: e2 :: ...], a known list, one
    element at a time; where [x] can stand, the goal is closed. *)
Ltac peel E :=
  lazymatch type of E with
  | ?pre ++ _ :: _ = [] => destruct pre; discriminate E
  | ?pre ++ _ :: _ = _ :: _ =>
      let x := fresh "x" in
      let p := fresh "p" in
      destruct pre as [|x p]; cbn in E;
      [ try discriminate E; inversion E; subst; repeat split; cbn; auto 10
      | injection E as -> E; peel E ]
  end.

(** X1: [Agent_OnLoad] stops at the first host call that fails.  Let
    the host be asked the six queries in order until its first error.  The
    calls [Agent_OnLoad] makes are exactly the ones that were answered,
    and it leaves the host in the state after the last of them.  If all
    six were answered [JNI_OK] it returns [JNI_OK] and writes the success
    line; otherwise it returns [JNI_ERR] and writes, after the call that
    failed, the diagnostic of that call and nothing else. *)
Theorem Agent_OnLoad_fails_fast (h : H) :
  let answers := fst (ask (load_queries vm) h) in
  let r := Agent_OnLoad vm h in
  snd (fst r) = snd (ask (load_queries vm) h) /\
  filter is_load_call (snd r) = firstn (List.length answers) load_calls /\
  if forallb (fun ok : bool => ok) answers
  then
    List.length answers = 6%nat /\
    fst (fst r) = JNI_OK /\
    snd r = load_calls ++ [LStderr ("Agent loaded successfully" ++ nl)%string]
  else
    last answers true = false /\
    forallb (fun ok : bool => ok) (removelast answers) = true /\
    fst (fst r) = JNI_ERR /\
    snd r =
      firstn (List.length answers) load_calls
      ++ [LStderr (nth (List.length answers - 1) load_messages EmptyString)].
Proof.
  cbv zeta. unfold Agent_OnLoad, or_fail, load_queries, ask.
  destruct (GetEnv vm JVMTI_VERSION_1_2 h) as [[|] h1]; [|repeat split].
  destruct (AddCapabilities vm agent_capabilities h1) as [[|] h2]; [|repeat split].
  destruct (SetEventCallbacks vm agent_callbacks h2) as [[|] h3]; [|repeat split].
  destruct (SetEventNotificationMode vm JVMTI_ENABLE JVMTI_EVENT_VM_START None h3)
    as [[|] h4]; [|repeat split].
  destruct (SetEventNotificationMode vm JVMTI_ENABLE JVMTI_EVENT_CLASS_LOAD None h4)
    as [[|] h5]; [|repeat split].
  destruct (SetEventNotificationMode vm JVMTI_ENABLE JVMTI_EVENT_FIELD_MODIFICATION
              None h5) as [[|] h6]; repeat split.
Qed.

(** X2: an event is enabled only once the host has granted what the
    agent needs.  If [Agent_OnLoad] makes a call that enables an event,
    then before it the host was asked for the JVMTI environment, for the
    capabilities and for the registration of the two callbacks, in this
    order, and answered each of them with [JNI_OK]; the event is enabled
    for all threads, and never disabled. *)
Theorem Agent_OnLoad_registers_before_enabling
    (h : H) (pre post : list load_event) mode ev th :
  let a0 := GetEnv vm JVMTI_VERSION_1_2 h in
  let a1 := AddCapabilities vm agent_capabilities (snd a0) in
  let a2 := SetEventCallbacks vm agent_callbacks (snd a1) in
  snd (Agent_OnLoad vm h) = pre ++ LSetEventNotificationMode mode ev th :: post ->
  (fst a0 = true /\ fst a1 = true /\ fst a2 = true) /\
  firstn 3 pre =
    [LGetEnv JVMTI_VERSION_1_2; LAddCapabilities agent_capabilities;
     LSetEventCallbacks agent_callbacks] /\
  mode = JVMTI_ENABLE /\ th = None.
Proof.
  cbv zeta. unfold Agent_OnLoad, or_fail. intros E. symmetry in E.
  destruct (GetEnv vm JVMTI_VERSION_1_2 h) as [[|] h1]; cbn [fst snd] in *;
    [|cbn in E; peel E].
  destruct (AddCapabilities vm agent_capabilities h1) as [[|] h2]; cbn [fst snd] in *;
    [|cbn in E; peel E].
  destruct (SetEventCallbacks vm agent_callbacks h2) as [[|] h3]; cbn [fst snd] in *;
    [|cbn in E; peel E].
  destruct (SetEventNotificationMode vm JVMTI_ENABLE JVMTI_EVENT_VM_START None h3)
    as [[|] h4]; [|cbn in E; peel E].
  destruct (SetEventNotificationMode vm JVMTI_ENABLE JVMTI_EVENT_CLASS_LOAD None h4)
    as [[|] h5]; [|cbn in E; peel E].
  destruct (SetEventNotificationMode vm JVMTI_ENABLE JVMTI_EVENT_FIELD_MODIFICATION
              None h5) as [[|] h6]; cbn in E; peel E.
Qed.

(** X3: on a host where each of the calls succeeds, the start-up
    returns [JNI_OK], having registered exactly the two callbacks
    [ClassLoad] and [OnFieldModification] and enabled exactly the events
    VM start, class load and field modification, in this order. *)
Theorem Agent_OnLoad_succeeds (h : H) :
  (forall v h', fst (GetEnv vm v h') = true) ->
  (forall c h', fst (AddCapabilities vm c h') = true) ->
  (forall cb h', fst (SetEventCallbacks vm cb h') = true) ->
  (forall m ev th h', fst (SetEventNotificationMode vm m ev th h') = true) ->
  fst (fst (Agent_OnLoad vm h)) = JNI_OK /\
  snd (Agent_OnLoad vm h) =
    [LGetEnv JVMTI_VERSION_1_2;
     LAddCapabilities agent_capabilities;
     LSetEventCallbacks (mkCallbacks None (Some cb_ClassLoad) (Some cb_OnFieldModification));
     LSetEventNotificationMode JVMTI_ENABLE JVMTI_EVENT_VM_START None;
     LSetEventNotificationMode JVMTI_ENABLE JVMTI_EVENT_CLASS_LOAD None;
     LSetEventNotificationMode JVMTI_ENABLE JVMTI_EVENT_FIELD_MODIFICATION None;
     LStderr ("Agent loaded successfully" ++ nl)%string].
Proof.
  intros G A C N.
  unfold Agent_OnLoad, or_fail.
  pose proof (G JVMTI_VERSION_1_2 h) as E.
  destruct (GetEnv vm JVMTI_VERSION_1_2 h) as [o h1]. cbn in E. subst o.
  pose proof (A agent_capabilities h1) as E.
  destruct (AddCapabilities vm agent_capabilities h1) as [o h2]. cbn in E. subst o.
  pose proof (C agent_callbacks h2) as E.
  destruct (SetEventCallbacks vm agent_callbacks h2) as [o h3]. cbn in E. subst o.
  pose proof (N JVMTI_ENABLE JVMTI_EVENT_VM_START None h3) as E.
  destruct (SetEventNotificationMode vm JVMTI_ENABLE JVMTI_EVENT_VM_START None h3)
    as [o h4]. cbn in E. subst o.
  pose proof (N JVMTI_ENABLE JVMTI_EVENT_CLASS_LOAD None h4) as E.
  destruct (SetEventNotificationMode vm JVMTI_ENABLE JVMTI_EVENT_CLASS_LOAD None h4)
    as [o h5]. cbn in E. subst o.
  pose proof (N JVMTI_ENABLE JVMTI_EVENT_FIELD_MODIFICATION None h5) as E.
  destruct (SetEventNotificationMode vm JVMTI_ENABLE JVMTI_EVENT_FIELD_MODIFICATION
              None h5) as [o h6]. cbn in E. subst o.
  split; reflexivity.
Qed.

End LoadFacts.

(** ** Guards and resolvers *)

Section ResolverFacts.

Context {H : Type} (jvm : JVM H).

(** X4: a guard moved by construction any number of times, through nested
    scopes, gives its buffer back to the host exactly once when the scopes
    end, and an empty guard moved likewise gives back nothing: the
    moved-from guards release nothing. *)
Theorem Holder_moves_release_once {T : Type} `{HostBuffer T}
    (n : nat) (p : option T) (s : State H) :
  result_of (scope_move_chain jvm n (Holder_new p) s) = Ret tt /\
  trace_of (scope_move_chain jvm n (Holder_new p) s) =
    match p with
    | Some b => [EDeallocate (address b)]
    | None => []
    end.
Proof.
  rewrite scope_move_chain_run. split.
  - apply deallocate_result.
  - apply deallocate_trace.
Qed.

Lemma getClassSignature_run (cls : jclass) (s : State H) :
  getClassSignature jvm cls s =
  match GetClassSignature jvm cls (host s) with
  | (Some b, h1) =>
      (Ret (mkHolder (Some b)), mkState h1 (thread_start s) (thread_name_field s),
       [EGetClassSignature cls])
  | (None, h1) =>
      (Ret (mkHolder None), mkState h1 (thread_start s) (thread_name_field s),
       [EGetClassSignature cls; EStderr "failed to take class signature"])
  end.
Proof.
  unfold getClassSignature, bind, call.
  destruct (GetClassSignature jvm cls (host s)) as [[b|] h1]; reflexivity.
Qed.

Lemma getMethodName_run (m : jmethodID) (s : State H) :
  getMethodName jvm m s =
  match GetMethodName jvm m (host s) with
  | (Some b, h1) =>
      (Ret (mkHolder (Some b)), mkState h1 (thread_start s) (thread_name_field s),
       [EGetMethodName m])
  | (None, h1) =>
      (Ret (mkHolder None), mkState h1 (thread_start s) (thread_name_field s),
       [EGetMethodName m; EStderr "failed to take class signature"])
  end.
Proof.
  unfold getMethodName, bind, call.
  destruct (GetMethodName jvm m (host s)) as [[b|] h1]; reflexivity.
Qed.

(** A resolver followed by the end of the scope of its guard. *)
Lemma resolve_then_drop (m : M H JNIChar) (s s1 : State H) (o : option cbuf) t1 :
  m s = (Ret (mkHolder o), s1, t1) ->
  (g <- m ;; Holder_dtor jvm g ;; ret g) s =
  (Ret (mkHolder o),
   match o with
   | Some b => mkState (snd (Deallocate jvm (addr b) (host s1)))
                 (thread_start s1) (thread_name_field s1)
   | None => s1
   end,
   t1 ++ match o with Some b => [EDeallocate (addr b)] | None => [] end).
Proof.
  intros E. unfold bind at 1. rewrite E.
  destruct o as [b|]; unfold bind, Holder_dtor, deallocate, call, ret,
    address, cbuf_HostBuffer; cbn.
  - destruct (Deallocate jvm (addr b) (host s1)) as [[] h2]. reflexivity.
  - reflexivity.
Qed.

(** X5: [getClassSignature] never fails: it returns a guard that owns the
    buffer of the host's answer, so the guard is valid exactly when the
    query succeeded.  Dropping the guard then gives that buffer back once;
    after a failed query there is one diagnostic and nothing to give
    back.  The globals are not touched. *)
Theorem getClassSignature_guards_answer (cls : jclass) (s : State H) :
  let answer := fst (GetClassSignature jvm cls (host s)) in
  let r := (g <- getClassSignature jvm cls ;; Holder_dtor jvm g ;; ret g) s in
  (exists g, result_of r = Ret g /\ get g = answer /\
             (valid g = true <-> answer <> None)) /\
  thread_start (state_of r) = thread_start s /\
  thread_name_field (state_of r) = thread_name_field s /\
  trace_of r =
    match answer with
    | Some b => [EGetClassSignature cls; EDeallocate (addr b)]
    | None => [EGetClassSignature cls; EStderr "failed to take class signature"]
    end.
Proof.
  cbv zeta. pose proof (getClassSignature_run cls s) as E.
  destruct (GetClassSignature jvm cls (host s)) as [[b|] h1];
    rewrite (resolve_then_drop _ _ _ _ _ E); cbn.
  - repeat split. eexists. repeat split; try reflexivity; discriminate.
  - repeat split. eexists. repeat split; try reflexivity; try discriminate.
    intros N. now contradiction N.
Qed.

(** X6: [getMethodName] behaves alike for method names: a guard on the
    host's answer, valid exactly on success, given back once when
    dropped; on failure one diagnostic, which is the same text as for a
    class signature. *)
Theorem getMethodName_guards_answer (m : jmethodID) (s : State H) :
  let answer := fst (GetMethodName jvm m (host s)) in
  let r := (g <- getMethodName jvm m ;; Holder_dtor jvm g ;; ret g) s in
  (exists g, result_of r = Ret g /\ get g = answer /\
             (valid g = true <-> answer <> None)) /\
  thread_start (state_of r) = thread_start s /\
  thread_name_field (state_of r) = thread_name_field s /\
  trace_of r =
    match answer with
    | Some b => [EGetMethodName m; EDeallocate (addr b)]
    | None => [EGetMethodName m; EStderr "failed to take class signature"]
    end.
Proof.
  cbv zeta. pose proof (getMethodName_run m s) as E.
  destruct (GetMethodName jvm m (host s)) as [[b|] h1];
    rewrite (resolve_then_drop _ _ _ _ _ E); cbn.
  - repeat split. eexists. repeat split; try reflexivity; discriminate.
  - repeat split. eexists. repeat split; try reflexivity; try discriminate.
    intros N. now contradiction N.
Qed.

End ResolverFacts.

(** ** Stack capturer, continued *)


Section MoreCaptureFacts.

Context {H : Type} (jvm : JVM H).

(** One turn of the frame loop, run: it ends the capture at the first
    lookup that fails, and otherwise writes one line. *)
Lemma printFrame_run (f : jvmtiFrameInfo) (s : State H) :
  printFrame jvm f s =
  let st h := mkState h (thread_start s) (thread_name_field s) in
  match GetMethodDeclaringClass jvm (method f) (host s) with
  | (None, h1) =>
      (Undefined IndeterminateRead, st h1,
       [EGetMethodDeclaringClass (method f);
        EStderr ("frame skip. Failed to get classID" ++ nl)%string])
  | (Some c, h1) =>
      match GetClassSignature jvm c h1 with
      | (sg, h2) =>
          match GetMethodName jvm (method f) h2 with
          | (nm, h3) =>
              let queries :=
                [EGetMethodDeclaringClass (method f); EGetClassSignature c]
                ++ match sg with
                   | Some _ => []
                   | None => [EStderr "failed to take class signature"]
                   end
                ++ [EGetMethodName (method f)]
                ++ match nm with
                   | Some _ => []
                   | None => [EStderr "failed to take class signature"]
                   end in
              match sg, nm with
              | Some a, Some b =>
                  (Ret tt,
                   st (snd (Deallocate jvm (addr a) (snd (Deallocate jvm (addr b) h3)))),
                   queries ++
                   [EStderr (c_str (chars a)); EStderr "#"; EStderr (c_str (chars b));
                    EStderr nl; EDeallocate (addr b); EDeallocate (addr a)])
              | Some a, None =>
                  (Undefined NullToStream, st h3,
                   queries ++ [EStderr (c_str (chars a)); EStderr "#"])
              | None, _ => (Undefined NullToStream, st h3, queries)
              end
          end
      end
  end.
Proof.
  unfold printFrame, getClassSignature, getMethodName, Holder_dtor, deallocate,
    bind, call, ret, cerr_cstr, cerr, read_local, undefined, get, Holder_new,
    address, cbuf_HostBuffer.
  cbn.
  destruct (GetMethodDeclaringClass jvm (method f) (host s)) as [[c|] h1]; cbn;
    [|reflexivity].
  destruct (GetClassSignature jvm c h1) as [[a|] h2]; cbn;
    destruct (GetMethodName jvm (method f) h2) as [[b|] h3]; cbn; try reflexivity.
  destruct (Deallocate jvm (addr b) h3) as [[] h4]. cbn.
  destruct (Deallocate jvm (addr a) h4) as [[] h5]. reflexivity.
Qed.


Lemma keeps_getClassSignature cls : keeps_globals (getClassSignature jvm cls).
Proof.
  intros s. rewrite getClassSignature_run.
  destruct (GetClassSignature jvm cls (host s)) as [[b|] h1]; split; reflexivity.
Qed.

Lemma keeps_getMethodName m : keeps_globals (getMethodName jvm m).
Proof.
  intros s. rewrite getMethodName_run.
  destruct (GetMethodName jvm m (host s)) as [[b|] h1]; split; reflexivity.
Qed.

Lemma keeps_printFrame f : keeps_globals (printFrame jvm f).
Proof.
  intros s. rewrite printFrame_run. cbv zeta.
  destruct (GetMethodDeclaringClass jvm (method f) (host s)) as [[c|] h1];
    [|split; reflexivity].
  destruct (GetClassSignature jvm c h1) as [[a|] h2];
    destruct (GetMethodName jvm (method f) h2) as [[b|] h3]; split; reflexivity.
Qed.

Lemma keeps_printFrames fs : keeps_globals (printFrames jvm fs).
Proof.
  induction fs as [|f fs IH]; cbn [printFrames]; [apply keeps_ret|].
  apply keeps_bind; [apply keeps_printFrame | intros _; exact IH].
Qed.

Lemma keeps_printStackTrace thread : keeps_globals (printStackTrace jvm thread).
Proof.
  intros s. rewrite printStackTrace_run.
  destruct (GetThreadInfo jvm thread (host s)) as [info h1].
  destruct (GetStackTrace jvm thread 2 10 h1) as [[fs|] h2]; [|split; reflexivity].
  cbv zeta. cbn [state_of fst snd].
  apply (keeps_printFrames fs
           (mkState h2 (thread_start s) (thread_name_field s))).
Qed.

(** X8: a capture never writes the two globals: whatever the host answers
    and however the capture ends, the stored method and field identities
    are the same after [printStackTrace] as before. *)
Theorem printStackTrace_keeps_identities (thread : jthread) (s : State H) :
  thread_start (state_of (printStackTrace jvm thread s)) = thread_start s /\
  thread_name_field (state_of (printStackTrace jvm thread s)) = thread_name_field s.
Proof. apply keeps_printStackTrace. Qed.

Section Resolving.

Variables (cls_of : jmethodID -> jclass) (sig_of : jclass -> cbuf)
  (nm_of : jmethodID -> cbuf).

Hypothesis declaring_class_resolves :
  forall m h, fst (GetMethodDeclaringClass jvm m h) = Some (cls_of m).
Hypothesis signature_resolves :
  forall c h, fst (GetClassSignature jvm c h) = Some (sig_of c).
Hypothesis method_name_resolves :
  forall m h, fst (GetMethodName jvm m h) = Some (nm_of m).



End Resolving.

End MoreCaptureFacts.

(** ** The two handlers, continued *)

Section MoreHandlerFacts.

Context {H : Type} (jvm : JVM H).

(** X10: whenever the signature of the loaded class resolves, [ClassLoad]
    returns normally and hands the signature buffer back to the host
    exactly once, whether or not the class is the thread type; it is the
    last thing the handler does. *)
Theorem ClassLoad_releases_signature_once
    (thread : jthread) (klass : jclass) (s : State H) (b : cbuf) :
  fst (GetClassSignature jvm klass (host s)) = Some b ->
  let r := ClassLoad jvm thread klass s in
  result_of r = Ret tt /\
  filter is_dealloc (trace_of r) = [EDeallocate (addr b)] /\
  exists before, trace_of r = before ++ [EDeallocate (addr b)].
Proof.
  intros E. cbv zeta. rewrite ClassLoad_run.
  destruct (GetClassSignature jvm klass (host s)) as [o h1]. cbn in E. subst o.
  destruct (is_thread_signature b).
  - destruct (GetMethodID jvm klass "start" "()V" h1) as [m h2].
    destruct (GetFieldID jvm klass "name" "Ljava/lang/String;" h2) as [f h3].
    destruct (SetFieldModificationWatch jvm klass f h3) as [[|] h4]; cbn;
      (split; [reflexivity|]; split; [reflexivity|]).
    + exists [EGetClassSignature klass; EGetMethodID klass "start" "()V";
              EGetFieldID klass "name" "Ljava/lang/String;";
              ESetFieldModificationWatch klass f]. reflexivity.
    + eexists [_; _; _; _; _]. reflexivity.
  - cbn. split; [reflexivity|]. split; [reflexivity|].
    exists [EGetClassSignature klass]. reflexivity.
Qed.

(** X11: a class-load event for the thread type stores whatever the two
    lookups answer, without checking them, and requests the watch once,
    on the loaded class and on the field identity just stored.  A refused
    watch is only logged: the handler still returns normally and the
    field identity stays stored. *)
Theorem ClassLoad_arms_with_lookups
    (thread : jthread) (klass : jclass) (s : State H) (b : cbuf) :
  let q0 := GetClassSignature jvm klass (host s) in
  let q1 := GetMethodID jvm klass "start" "()V" (snd q0) in
  let q2 := GetFieldID jvm klass "name" "Ljava/lang/String;" (snd q1) in
  let q3 := SetFieldModificationWatch jvm klass (fst q2) (snd q2) in
  fst q0 = Some b ->
  c_str (chars b) = "Ljava/lang/Thread;"%string ->
  let r := ClassLoad jvm thread klass s in
  result_of r = Ret tt /\
  thread_start (state_of r) = fst q1 /\
  thread_name_field (state_of r) = fst q2 /\
  filter is_watch (trace_of r) = [ESetFieldModificationWatch klass (fst q2)] /\
  stderr_text (trace_of r) =
    if fst q3 then EmptyString else ("failed to attach field watcher" ++ nl)%string.
Proof.
  cbv zeta. intros E Y. apply is_thread_signature_spec in Y.
  rewrite ClassLoad_run.
  destruct (GetClassSignature jvm klass (host s)) as [o h1]. cbn in E. subst o.
  rewrite Y. cbn [snd].
  destruct (GetMethodID jvm klass "start" "()V" h1) as [m h2]. cbn [fst snd].
  destruct (GetFieldID jvm klass "name" "Ljava/lang/String;" h2) as [f h3].
  cbn [fst snd].
  destruct (SetFieldModificationWatch jvm klass f h3) as [[|] h4];
    repeat split.
Qed.

Lemma printStackTrace_one_request (thread : jthread) (s : State H) :
  filter is_stack_request (trace_of (printStackTrace jvm thread s)) =
    [EGetStackTrace thread 2 10].
Proof.
  rewrite printStackTrace_run.
  destruct (GetThreadInfo jvm thread (host s)) as [info h1].
  assert (Hd : filter is_stack_request (header_events info) = [])
    by (destruct info; reflexivity).
  destruct (GetStackTrace jvm thread 2 10 h1) as [[fs|] h2]; cbv zeta;
    cbn [trace_of snd filter is_stack_request]; rewrite filter_app, Hd; cbn.
  - f_equal.
    apply filter_excluded with (Q := is_frame_event);
      [intros []; simpl; congruence | apply printFrames_emits].
  - reflexivity.
Qed.

(** X12: a modification of the armed field whose new value decodes to
    ["HighResTimer"] writes the notice, releases the decoded characters
    and then runs one capture, on the thread the event names: there is
    one decode, one release and one request for a stack, that of this
    thread. *)
Theorem OnFieldModification_match_captures
    (thread : jthread) (field : jfieldID) (new_value : jstring) (s : State H)
    (b : cbuf) :
  field = thread_name_field s ->
  fst (GetStringUTFChars jvm new_value (host s)) = Some b ->
  c_str (chars b) = "HighResTimer"%string ->
  let r := OnFieldModification jvm thread field new_value s in
  (exists capture,
     trace_of r =
       [EGetStringUTFChars new_value;
        EStderr "Thread "; EStderr "HighResTimer";
        EStderr (" is about to get started" ++ nl)%string;
        EReleaseStringUTFChars new_value (Some b);
        EGetThreadInfo thread] ++ capture) /\
  filter is_decode (trace_of r) = [EGetStringUTFChars new_value] /\
  filter is_stack_request (trace_of r) = [EGetStackTrace thread 2 10].
Proof.
  intros F E N. cbv zeta. rewrite OnFieldModification_run.
  rewrite F, Z.eqb_refl.
  destruct (GetStringUTFChars jvm new_value (host s)) as [o h1]. cbn in E. subst o.
  cbv zeta. rewrite (proj2 (strcmp_target b) N), N.
  set (s2 := mkState _ _ _).
  pose proof (printStackTrace_one_request thread s2) as Q.
  pose proof (printStackTrace_emits jvm thread s2) as P.
  pose proof (printStackTrace_run jvm thread s2) as R.
  destruct (printStackTrace jvm thread s2) as [[r s3] t3].
  cbn [trace_of snd] in *. split; [|split].
  - destruct (GetThreadInfo jvm thread (host s2)) as [info h3].
    destruct (GetStackTrace jvm thread 2 10 h3) as [[fs|] h4];
      injection R as _ _ ->; eexists; reflexivity.
  - cbn. f_equal. apply filter_excluded with (Q := is_capture); [|exact P].
    intros []; simpl; congruence.
  - cbn. exact Q.
Qed.

(** X13: when the new value decodes, a stack is requested exactly when
    the event is for the armed field and the decoded C string is
    ["HighResTimer"]. *)
Theorem OnFieldModification_captures_iff
    (thread : jthread) (field : jfieldID) (new_value : jstring) (s : State H)
    (b : cbuf) :
  fst (GetStringUTFChars jvm new_value (host s)) = Some b ->
  (filter is_stack_request
     (trace_of (OnFieldModification jvm thread field new_value s)) <> []
   <->
   field = thread_name_field s /\ c_str (chars b) = "HighResTimer"%string).
Proof.
  intros E. rewrite OnFieldModification_run.
  destruct (Z.eqb_spec field (thread_name_field s)) as [F|F].
  - destruct (GetStringUTFChars jvm new_value (host s)) as [o h1]. cbn in E. subst o.
    cbv zeta.
    destruct (strcmp (chars b) THREAD_TO_CATCH =? 0) eqn:C.
    + apply strcmp_target in C. split; [intros _; split; assumption|].
      intros _.
      pose proof (printStackTrace_one_request thread
        (mkState (snd (ReleaseStringUTFChars jvm new_value (Some b) h1))
           (thread_start s) (thread_name_field s))) as Q.
      unfold trace_of in *. cbn [snd app filter is_stack_request].
      rewrite Q. discriminate.
    + split; [intros N; now contradiction N|].
      intros [_ N]. apply (proj2 (strcmp_target b)) in N. congruence.
  - split; [intros N; now contradiction N | intros [F' _]; contradiction].
Qed.

(** X14: the field-modification handler never writes the two globals:
    whatever the event and whatever the host answers, the stored
    identities are the same afterwards.  Only [ClassLoad] arms. *)
Theorem OnFieldModification_keeps_identities
    (thread : jthread) (field : jfieldID) (new_value : jstring) (s : State H) :
  let r := OnFieldModification jvm thread field new_value s in
  thread_start (state_of r) = thread_start s /\
  thread_name_field (state_of r) = thread_name_field s.
Proof.
  cbv zeta. rewrite OnFieldModification_run.
  destruct (field =? thread_name_field s); [|split; reflexivity].
  destruct (GetStringUTFChars jvm new_value (host s)) as [[b|] h1];
    [|split; reflexivity].
  cbv zeta. destruct (strcmp (chars b) THREAD_TO_CATCH =? 0); [|split; reflexivity].
  cbn [state_of fst snd].
  apply (keeps_printStackTrace jvm thread
           (mkState (snd (ReleaseStringUTFChars jvm new_value (Some b) h1))
              (thread_start s) (thread_name_field s))).
Qed.

(** X15: the result of [GetStringUTFChars] is not checked.  When the host
    cannot decode the new value of the armed field and answers with a
    null pointer, the handler passes it to [strcmp], which is undefined;
    nothing was written and nothing is released. *)
Theorem OnFieldModification_null_decode
    (thread : jthread) (field : jfieldID) (new_value : jstring) (s : State H) :
  field = thread_name_field s ->
  fst (GetStringUTFChars jvm new_value (host s)) = None ->
  let r := OnFieldModification jvm thread field new_value s in
  result_of r = Undefined NullToStrcmp /\
  trace_of r = [EGetStringUTFChars new_value].
Proof.
  intros F E. cbv zeta. rewrite OnFieldModification_run.
  rewrite F, Z.eqb_refl.
  destruct (GetStringUTFChars jvm new_value (host s)) as [o h1]. cbn in E. subst o.
  split; reflexivity.
Qed.

(** X16: arming and matching compose.  After a class-load event for the
    thread type, a modification of the field whose identity the load
    stored, with a new value that decodes to ["HighResTimer"], is
    captured: over the two events there is one watch request, on that
    field, and one stack request, for the thread of the second event. *)
Theorem armed_then_matched
    (loader thread : jthread) (klass : jclass) (new_value : jstring)
    (s : State H) (b v : cbuf) :
  fst (GetClassSignature jvm klass (host s)) = Some b ->
  c_str (chars b) = "Ljava/lang/Thread;"%string ->
  let s1 := state_of (ClassLoad jvm loader klass s) in
  fst (GetStringUTFChars jvm new_value (host s1)) = Some v ->
  c_str (chars v) = "HighResTimer"%string ->
  let r := deliver jvm [EvClassLoad loader klass;
                        EvFieldModification thread (thread_name_field s1) new_value] s in
  filter is_watch (trace_of r) =
    [ESetFieldModificationWatch klass (thread_name_field s1)] /\
  filter is_stack_request (trace_of r) = [EGetStackTrace thread 2 10].
Proof.
  intros E Y s1 D N. cbv zeta.
  apply is_thread_signature_spec in Y.
  assert (C : exists f ok,
    ClassLoad jvm loader klass s =
      (Ret tt, s1,
       [EGetClassSignature klass; EGetMethodID klass "start" "()V";
        EGetFieldID klass "name" "Ljava/lang/String;";
        ESetFieldModificationWatch klass f]
       ++ (if ok : bool then []
           else [EStderr ("failed to attach field watcher" ++ nl)%string])
       ++ [EDeallocate (addr b)]) /\
    thread_name_field s1 = f).
  { subst s1. rewrite ClassLoad_run.
    destruct (GetClassSignature jvm klass (host s)) as [o h1]. cbn in E. subst o.
    rewrite Y.
    destruct (GetMethodID jvm klass "start" "()V" h1) as [m h2].
    destruct (GetFieldID jvm klass "name" "Ljava/lang/String;" h2) as [f h3].
    destruct (SetFieldModificationWatch jvm klass f h3) as [ok h4].
    exists f, ok. split; reflexivity. }
  destruct C as (f & ok & C & F).
  cbn [deliver dispatch].
  rewrite (bind_Ret _ _ _ _ _ _ C), bind_ret_tt.
  assert (W : filter is_watch
                (trace_of (OnFieldModification jvm thread (thread_name_field s1)
                             new_value s1)) = [] /\
              filter is_stack_request
                (trace_of (OnFieldModification jvm thread (thread_name_field s1)
                             new_value s1)) = [EGetStackTrace thread 2 10]).
  { rewrite OnFieldModification_run, Z.eqb_refl.
    destruct (GetStringUTFChars jvm new_value (host s1)) as [o h1]. cbn in D. subst o.
    cbv zeta. rewrite (proj2 (strcmp_target v) N).
    set (s2 := mkState _ _ _).
    pose proof (printStackTrace_one_request thread s2) as Q.
    pose proof (printStackTrace_emits jvm thread s2) as P.
    unfold trace_of in *. cbn [snd app filter is_watch is_stack_request].
    split; [|exact Q].
    apply filter_excluded with (Q := is_capture); [|exact P].
    intros []; simpl; congruence. }
  destruct W as [W S2].
  unfold trace_of in *. cbn [snd]. rewrite !filter_app, W, S2, F.
  destruct ok; split; reflexivity.
Qed.


End MoreHandlerFacts.

(** ** The further properties at concrete inputs *)

Lemma Agent_OnLoad_registers_before_enabling_witness :
  snd (Agent_OnLoad (failing_at 4) 0%nat) =
    [LGetEnv JVMTI_VERSION_1_2; LAddCapabilities agent_capabilities;
     LSetEventCallbacks agent_callbacks]
    ++ LSetEventNotificationMode JVMTI_ENABLE JVMTI_EVENT_VM_START None
    :: [LSetEventNotificationMode JVMTI_ENABLE JVMTI_EVENT_CLASS_LOAD None;
        LStderr ("SetEventNotificationMode JVMTI_EVENT_CLASS_LOAD failed" ++ nl)%string] /\
  fst (SetEventCallbacks (failing_at 4) agent_callbacks 2%nat) = true.
Proof.
  split; [reflexivity|].
  exact (proj2 (proj2 (proj1 (Agent_OnLoad_registers_before_enabling (failing_at 4) 0%nat
    [LGetEnv JVMTI_VERSION_1_2; LAddCapabilities agent_capabilities;
     LSetEventCallbacks agent_callbacks]
    [LSetEventNotificationMode JVMTI_ENABLE JVMTI_EVENT_CLASS_LOAD None;
     LStderr ("SetEventNotificationMode JVMTI_EVENT_CLASS_LOAD failed" ++ nl)%string]
    JVMTI_ENABLE JVMTI_EVENT_VM_START None eq_refl)))).
Defined.

Lemma Agent_OnLoad_succeeds_witness :
  (forall v h', fst (GetEnv always_ok v h') = true) /\
  fst (fst (Agent_OnLoad always_ok 0%nat)) = JNI_OK.
Proof.
  split; [intros v h'; reflexivity|].
  exact (proj1 (Agent_OnLoad_succeeds always_ok 0%nat
                  (fun _ _ => eq_refl) (fun _ _ => eq_refl)
                  (fun _ _ => eq_refl) (fun _ _ _ _ => eq_refl))).
Defined.



Lemma ClassLoad_releases_signature_once_witness :
  fst (GetClassSignature (scripted demo) 1 (host (initial 0%nat)))
    = Some (mkbuf 1001 "Ljava/lang/Thread;") /\
  filter is_dealloc (trace_of (ClassLoad (scripted demo) 0 1 (initial 0%nat)))
    = [EDeallocate 1001].
Proof.
  split; [reflexivity|].
  exact (proj1 (proj2 (ClassLoad_releases_signature_once (scripted demo) 0 1
                         (initial 0%nat) (mkbuf 1001 "Ljava/lang/Thread;") eq_refl))).
Defined.

Lemma ClassLoad_arms_with_lookups_witness :
  fst (GetClassSignature (scripted resolved) 1 (host (initial 0%nat)))
    = Some (sigof_resolved 1) /\
  thread_name_field (state_of (ClassLoad (scripted resolved) 0 1 (initial 0%nat))) = 102 /\
  stderr_text (trace_of (ClassLoad (scripted resolved) 0 1 (initial 0%nat)))
    = ("failed to attach field watcher" ++ nl)%string.
Proof.
  split; [reflexivity|].
  pose proof (ClassLoad_arms_with_lookups (scripted resolved) 0 1 (initial 0%nat)
                (sigof_resolved 1) eq_refl eq_refl) as (_ & _ & F & _ & W).
  split; [exact F | exact W].
Defined.

Lemma OnFieldModification_match_captures_witness :
  fst (GetStringUTFChars (scripted demo) 50 (host (mkState 0%nat 101 102)))
    = Some (mkbuf 5050 "HighResTimer") /\
  filter is_stack_request
    (trace_of (OnFieldModification (scripted demo) 7 102 50 (mkState 0%nat 101 102)))
    = [EGetStackTrace 7 2 10].
Proof.
  split; [reflexivity|].
  exact (proj2 (proj2 (OnFieldModification_match_captures (scripted demo) 7 102 50
                         (mkState 0%nat 101 102) (mkbuf 5050 "HighResTimer")
                         eq_refl eq_refl eq_refl))).
Defined.

Lemma OnFieldModification_captures_iff_witness :
  fst (GetStringUTFChars (scripted demo) 51 (host (mkState 0%nat 101 102)))
    = Some (mkbuf 5051 "highrestimer") /\
  (filter is_stack_request
     (trace_of (OnFieldModification (scripted demo) 7 102 51 (mkState 0%nat 101 102)))
     <> [] <->
   102 = 102 /\ "highrestimer"%string = "HighResTimer"%string).
Proof.
  split; [reflexivity|].
  exact (OnFieldModification_captures_iff (scripted demo) 7 102 51
           (mkState 0%nat 101 102) (mkbuf 5051 "highrestimer") eq_refl).
Defined.

Lemma OnFieldModification_null_decode_witness :
  fst (GetStringUTFChars (scripted demo) 99 (host (mkState 0%nat 101 102))) = None /\
  result_of (OnFieldModification (scripted demo) 7 102 99 (mkState 0%nat 101 102))
    = Undefined NullToStrcmp.
Proof.
  split; [reflexivity|].
  exact (proj1 (OnFieldModification_null_decode (scripted demo) 7 102 99
                  (mkState 0%nat 101 102) eq_refl eq_refl)).
Defined.

Lemma armed_then_matched_witness :
  fst (GetClassSignature (scripted demo) 1 (host (initial 0%nat)))
    = Some (mkbuf 1001 "Ljava/lang/Thread;") /\
  fst (GetStringUTFChars (scripted demo) 50
         (host (state_of (ClassLoad (scripted demo) 0 1 (initial 0%nat)))))
    = Some (mkbuf 5050 "HighResTimer") /\
  filter is_stack_request
    (trace_of (deliver (scripted demo)
                 [EvClassLoad 0 1; EvFieldModification 7 102 50] (initial 0%nat)))
    = [EGetStackTrace 7 2 10].
Proof.
  split; [reflexivity|]. split; [reflexivity|].
  exact (proj2 (armed_then_matched (scripted demo) 0 7 1 50 (initial 0%nat)
                  (mkbuf 1001 "Ljava/lang/Thread;") (mkbuf 5050 "HighResTimer")
                  eq_refl eq_refl eq_refl eq_refl)).
Defined.

